(** * evaluation.py: scoring of aspect-based sentiment annotations

    A shallow embedding of [src/evaluation.py] and the properties of its
    gold-file parser ([get_gold_info]), span matcher ([compute_match]) and
    review-level scorer ([compute_overall_sentiment_accuracy]).

    Conventions of the embedding:
    - a text file is the list of its lines as Python's file iterator (or
      [readlines]) yields them, line terminators included;
    - Python [int] values are [Z], counters and list lengths are [nat];
    - a raised exception is the [Raise] constructor of [result]; the
      function's local state is dropped with it, as in Python;
    - the per-document dict with the keys "starts", "ends", "cats" and
      "sents" is the record [doc_gold]; the gold dict is a [gmap];
    - the built-in [int] on strings is a parameter [py_int] of the
      development ([None] when it raises [ValueError]); concrete runs use
      [int_decimal], which reads plain signed decimal literals;
    - the quotient of two Python ints (true division) is kept as the exact
      rational in [Q]. *)

From Stdlib Require Import ZArith QArith String Ascii List Lia.
From stdpp Require Import base option list gmap fin_maps fin_sets strings.

Local Open Scope string_scope.
Local Open Scope nat_scope.

(** ** Exceptions *)

Inductive exn : Type :=
| IndexError
| ValueError
| KeyError (key : string)
| ZeroDivisionError.

Inductive result (A : Type) : Type :=
| Ok (a : A)
| Raise (e : exn).

Arguments Ok {A} a.
Arguments Raise {A} e.

#[global] Instance result_ret : MRet result := fun A a => Ok a.
#[global] Instance result_bind : MBind result := fun A B f m =>
  match m with
  | Ok a => f a
  | Raise e => Raise e
  end.

Definition raises {A} (r : result A) : Prop := exists e, r = Raise e.

(** ** Python built-ins on lists and strings *)

(** [l[i]] for [0 <= i]. *)
Definition getitem {A} (l : list A) (i : nat) : result A :=
  match l !! i with
  | Some x => Ok x
  | None => Raise IndexError
  end.

(** [x in l] on a list of ints. *)
Definition contains (x : Z) (l : list Z) : bool :=
  existsb (Z.eqb x) l.

(** [l.index(x)]: position of the first element equal to [x]. *)
Fixpoint index (x : Z) (l : list Z) : result nat :=
  match l with
  | [] => Raise ValueError
  | y :: l' => if Z.eqb y x then Ok 0 else i ← index x l'; Ok (S i)
  end.

Definition TAB : ascii := "009"%char.
Definition LF : ascii := "010"%char.
Definition CR : ascii := "013"%char.

Definition is_empty (s : string) : bool :=
  match s with
  | EmptyString => true
  | String _ _ => false
  end.

(** [s.rstrip(chars)]: drop the trailing characters that are in [chars]. *)
Fixpoint rstrip (chars : list ascii) (s : string) : string :=
  match s with
  | EmptyString => EmptyString
  | String c s' =>
      let r := rstrip chars s' in
      if is_empty r && existsb (Ascii.eqb c) chars then EmptyString
      else String c r
  end.

(** [s.split(sep)] for a one-character separator; never the empty list. *)
Fixpoint split (sep : ascii) (s : string) : list string :=
  match s with
  | EmptyString => [EmptyString]
  | String c s' =>
      if Ascii.eqb c sep then EmptyString :: split sep s'
      else match split sep s' with
           | [] => [String c EmptyString]
           | f :: fs => String c f :: fs
           end
  end.

(** [line.rstrip('\r\n').split('\t')] *)
Definition fields (raw : string) : list string :=
  split TAB (rstrip [CR; LF] raw).

(** A reader of plain decimal literals with an optional sign, the instance
    of [int] used to run the model on concrete files. *)
Definition digit (c : ascii) : option Z :=
  let n := nat_of_ascii c in
  if (48 <=? n) && (n <=? 57) then Some (Z.of_nat (n - 48)) else None.

Fixpoint digits (acc : Z) (s : string) : option Z :=
  match s with
  | EmptyString => Some acc
  | String c s' =>
      match digit c with
      | Some d => digits (10 * acc + d)%Z s'
      | None => None
      end
  end.

Definition int_decimal (s : string) : option Z :=
  match s with
  | EmptyString => None
  | String c s' =>
      if Ascii.eqb c "-" then
        if is_empty s' then None else Z.opp <$> digits 0 s'
      else if Ascii.eqb c "+" then
        if is_empty s' then None else digits 0 s'
      else digits 0 s
  end.

(** A line of a file: the fields joined by tabs, then a line feed. *)
Fixpoint tsv (fs : list string) : string :=
  match fs with
  | [] => String LF EmptyString
  | [f] => f ++ String LF EmptyString
  | f :: fs' => f ++ String TAB (tsv fs')
  end.

(** ** Data *)

(** One document of the gold standard: four parallel lists. *)
Record doc_gold : Type := DocGold {
  starts : list Z;
  ends : list Z;
  cats : list string;
  sents : list string
}.

Definition empty_doc : doc_gold := DocGold [] [] [] [].

(** The list [[starts[i], ends[i], cats[i], sents[i]]] of a matched pair. *)
Definition gold_item : Type := Z * Z * string * string.

(** A matched pair: the gold item and the fields of the predicted line. *)
Definition matched_pair : Type := gold_item * list string.

(** The local variables of [compute_match]. *)
Record tally : Type := Tally {
  full_match : nat;
  partial_match : nat;
  full_cat_match : nat;
  partial_cat_match : nat;
  fully_matched_pairs : list matched_pair;
  partially_matched_pairs : list matched_pair;
  total : nat
}.

Definition tally0 : tally := Tally 0 0 0 0 [] [] 0.

(** How the body of a [for] loop ends: [continue] (or falling off the end)
    or [break]. *)
Inductive flow : Type :=
| Continue (t : tally)
| Break (t : tally).

(** [for x in l: s = body(s, x)], stopping at the first exception. *)
Fixpoint for_each {A S : Type} (body : S -> A -> result S) (s : S) (l : list A)
  : result S :=
  match l with
  | [] => Ok s
  | x :: l' => s' ← body s x; for_each body s' l'
  end.

(** The same loop with a body that may [break]. *)
Fixpoint for_break {A : Type} (body : A -> tally -> result flow) (l : list A)
  (t : tally) : result tally :=
  match l with
  | [] => Ok t
  | x :: l' =>
      f ← body x t;
      match f with
      | Continue t' => for_break body l' t'
      | Break t' => Ok t'
      end
  end.

(** ** [compute_overall_sentiment_accuracy] *)

(** [n / d] on Python ints. *)
Definition true_div (n d : nat) : result Q :=
  match d with
  | 0 => Raise ZeroDivisionError
  | S _ => Ok (Z.of_nat n # Pos.of_nat d)
  end.

Definition compute_overall_sentiment_accuracy (gold_file pred_file : list string)
  : result Q :=
  let gold_labels : gset string := list_to_set gold_file in
  let pred_labels : gset string := list_to_set pred_file in
  true_div (size (gold_labels ∩ pred_labels)) (size gold_labels).

(** The two counts of the ratio, read off the line lists: the distinct
    gold lines, and the distinct gold lines that also occur among the
    predicted lines. *)
Definition distinct_lines (file : list string) : nat :=
  length (remove_dups file).

Definition common_lines (gold_file pred_file : list string) : list string :=
  filter (fun l => l ∈ pred_file) gold_file.

Section Evaluation.

(** Python's [int] applied to a string. *)
Variable py_int : string -> option Z.

Definition int (s : string) : result Z :=
  match py_int s with
  | Some z => Ok z
  | None => Raise ValueError
  end.

(** ** [get_gold_info] *)

(** [gold[key]] *)
Definition lookup_doc (gold : gmap string doc_gold) (key : string)
  : result doc_gold :=
  match gold !! key with
  | Some d => Ok d
  | None => Raise (KeyError key)
  end.

(** [gold[key][...].append(...)]: an in-place update of the entry of [key]. *)
Definition update_doc (key : string) (f : doc_gold -> doc_gold)
  (gold : gmap string doc_gold) : result (gmap string doc_gold) :=
  d ← lookup_doc gold key; Ok (<[key := f d]> gold).

Definition append_start (v : Z) (d : doc_gold) : doc_gold :=
  DocGold (starts d ++ [v]) (ends d) (cats d) (sents d).
Definition append_end (v : Z) (d : doc_gold) : doc_gold :=
  DocGold (starts d) (ends d ++ [v]) (cats d) (sents d).
Definition append_cat (v : string) (d : doc_gold) : doc_gold :=
  DocGold (starts d) (ends d) (cats d ++ [v]) (sents d).
Definition append_sent (v : string) (d : doc_gold) : doc_gold :=
  DocGold (starts d) (ends d) (cats d) (sents d ++ [v]).

(** The body of the loop over the gold file (lines 38-44). *)
Definition gold_line (gold : gmap string doc_gold) (raw : string)
  : result (gmap string doc_gold) :=
  let line := fields raw in
  key ← getitem line 0;
  let gold := if decide (gold !! key = None) then <[key := empty_doc]> gold
              else gold in
  f3 ← getitem line 3; s ← int f3;
  gold ← update_doc key (append_start s) gold;
  f4 ← getitem line 4; e ← int f4;
  gold ← update_doc key (append_end e) gold;
  c ← getitem line 1;
  gold ← update_doc key (append_cat c) gold;
  se ← getitem line 5;
  update_doc key (append_sent se) gold.

(** [sum([len(gold[x]["cats"]) for x in gold])] *)
Definition gold_size (gold : gmap string doc_gold) : nat :=
  map_fold (fun _ d acc => length (cats d) + acc) 0 gold.

Definition get_gold_info (gold_file : list string)
  : result (gmap string doc_gold * nat) :=
  gold ← for_each gold_line ∅ gold_file;
  Ok (gold, gold_size gold).

(** ** [compute_match] *)

(** [[starts[i], ends[i], cats[i], sents[i]]] *)
Definition gold_at (d : doc_gold) (i : nat) : result gold_item :=
  s ← getitem (starts d) i;
  e ← getitem (ends d) i;
  c ← getitem (cats d) i;
  se ← getitem (sents d) i;
  Ok (s, e, c, se).

(** Lines 71-86: a full match with the gold span at [i]. *)
Definition record_full (d : doc_gold) (i : nat) (category : string)
  (line : list string) (t : tally) : result tally :=
  c ← getitem (cats d) i;
  g ← gold_at d i;
  Ok (Tally (S (full_match t)) (partial_match t)
        (if String.eqb c category then S (full_cat_match t)
         else full_cat_match t)
        (if String.eqb c category then partial_cat_match t
         else S (partial_cat_match t))
        (fully_matched_pairs t ++ [(g, line)]) (partially_matched_pairs t)
        (total t)).

(** Lines 92-105, 110-123 and 131-144: a partial match with the gold span
    at [i]. *)
Definition record_partial (d : doc_gold) (i : nat) (category : string)
  (line : list string) (t : tally) : result tally :=
  g ← gold_at d i;
  c ← getitem (cats d) i;
  Ok (Tally (full_match t) (S (partial_match t)) (full_cat_match t)
        (if String.eqb c category then S (partial_cat_match t)
         else partial_cat_match t)
        (fully_matched_pairs t) (partially_matched_pairs t ++ [(g, line)])
        (total t)).

(** Lines 108-125: the loop over [ends[i:]]; the boolean is [matched]. *)
Fixpoint scan_ends (d : doc_gold) (i : nat) (s_pos end_ : Z)
  (category : string) (line : list string) (es : list Z) (t : tally)
  : result (bool * tally) :=
  match es with
  | [] => Ok (false, t)
  | e_pos :: es' =>
      if (s_pos <=? end_)%Z && (end_ <=? e_pos)%Z then
        t' ← record_partial d i category line t; Ok (true, t')
      else scan_ends d i s_pos end_ category line es' t
  end.

(** Lines 128-145: the second [if] of the loop body. *)
Definition scan_after (d : doc_gold) (start end_ : Z) (category : string)
  (line : list string) (s_pos : Z) (t : tally) : result flow :=
  if (s_pos <? start)%Z then
    i ← index s_pos (starts d);
    e_i ← getitem (ends d) i;
    if (start <? e_i)%Z && (e_i <=? end_)%Z then
      t' ← record_partial d i category line t; Ok (Break t')
    else Ok (Continue t)
  else Ok (Continue t).

(** Lines 89-145: the body of the loop over [starts]. *)
Definition scan_body (d : doc_gold) (start end_ : Z) (category : string)
  (line : list string) (s_pos : Z) (t : tally) : result flow :=
  if (start <=? s_pos)%Z then
    i ← index s_pos (starts d);
    e_i ← getitem (ends d) i;
    if (e_i =? end_)%Z then
      t' ← record_partial d i category line t; Ok (Continue t')
    else
      '(matched, t') ← scan_ends d i s_pos end_ category line (drop i (ends d)) t;
      if matched : bool then Ok (Break t')
      else scan_after d start end_ category line s_pos t'
  else scan_after d start end_ category line s_pos t.

(** Lines 88-145: the loop over [starts]. *)
Definition scan (d : doc_gold) (start end_ : Z) (category : string)
  (line : list string) (t : tally) : result tally :=
  for_break (scan_body d start end_ category line) (starts d) t.

Definition count_line (t : tally) : tally :=
  Tally (full_match t) (partial_match t) (full_cat_match t)
    (partial_cat_match t) (fully_matched_pairs t) (partially_matched_pairs t)
    (S (total t)).

(** Lines 68-145: the exact-start probe, then the scan. *)
Definition match_line (d : doc_gold) (start end_ : Z) (category : string)
  (line : list string) (t : tally) : result tally :=
  if contains start (starts d) then
    i ← index start (starts d);
    e_i ← getitem (ends d) i;
    if (e_i =? end_)%Z then record_full d i category line t
    else scan d start end_ category line t
  else scan d start end_ category line t.

(** Lines 63-145: the body of the loop over the prediction file. *)
Definition pred_line (gold : gmap string doc_gold) (t : tally) (raw : string)
  : result tally :=
  let t := count_line t in
  let line := fields raw in
  f3 ← getitem line 3; start ← int f3;
  f4 ← getitem line 4; end_ ← int f4;
  category ← getitem line 1;
  key ← getitem line 0;
  d ← lookup_doc gold key;
  match_line d start end_ category line t.

Definition compute_match (pred_file : list string)
  (gold : gmap string doc_gold) : result tally :=
  for_each (pred_line gold) tally0 pred_file.

(** ** Notions used in the statements *)

(** A gold line that [get_gold_info] cannot read: fewer than six fields, or
    a start or end field that [int] rejects. *)
Definition not_int (f : option string) : bool :=
  match f with
  | Some s => match py_int s with Some _ => false | None => true end
  | None => false
  end.

Definition malformed (raw : string) : bool :=
  (length (fields raw) <? 6)
  || not_int (fields raw !! 3) || not_int (fields raw !! 4).

(** The four lists of a document are parallel. *)
Definition aligned (d : doc_gold) : Prop :=
  length (starts d) = length (ends d) /\
  length (ends d) = length (cats d) /\
  length (cats d) = length (sents d).

(** Every entry of the dict is made of parallel, non-empty lists. *)
Definition entries_aligned (gold : gmap string doc_gold) : Prop :=
  forall key d, gold !! key = Some d -> aligned d /\ 1 <= length (starts d).

(** The entry of a document after one more gold line about it. *)
Definition add_span (s e : Z) (c se : string) (d : doc_gold) : doc_gold :=
  DocGold (starts d ++ [s]) (ends d ++ [e]) (cats d ++ [c]) (sents d ++ [se]).

(** The gold spans of a document as [(start, end)] pairs, in file order. *)
Definition spans (d : doc_gold) : list (Z * Z) :=
  zip (starts d) (ends d).

(** Two spans, read as the closed ranges [p..q] and [s..e] that the
    comparisons of the matcher use, have an offset in common. *)
Definition overlaps (p q s e : Z) : bool :=
  (Z.max p s <=? Z.min q e)%Z.


(** What a prediction line is read as (lines 64-66). *)
Record prediction : Type := Prediction {
  p_doc : string;
  p_start : Z;
  p_end : Z;
  p_category : string
}.

Definition read_prediction (raw : string) : result prediction :=
  let line := fields raw in
  f3 ← getitem line 3; start ← int f3;
  f4 ← getitem line 4; end_ ← int f4;
  category ← getitem line 1;
  key ← getitem line 0;
  Ok (Prediction key start end_ category).

(** The counters agree with the lists of matched pairs. *)
Definition counts_agree (t : tally) : Prop :=
  full_match t = length (fully_matched_pairs t) /\
  partial_match t = length (partially_matched_pairs t).

(** The tally after a partial match with the gold item [g] of category [c]. *)
Definition with_partial (g : gold_item) (c category : string)
  (line : list string) (t : tally) : tally :=
  Tally (full_match t) (S (partial_match t)) (full_cat_match t)
    (if String.eqb c category then S (partial_cat_match t)
     else partial_cat_match t)
    (fully_matched_pairs t) (partially_matched_pairs t ++ [(g, line)])
    (total t).

(** The tally after a full match with the gold item [g] of category [c]. *)
Definition with_full (g : gold_item) (c category : string)
  (line : list string) (t : tally) : tally :=
  Tally (S (full_match t)) (partial_match t)
    (if String.eqb c category then S (full_cat_match t) else full_cat_match t)
    (if String.eqb c category then partial_cat_match t
     else S (partial_cat_match t))
    (fully_matched_pairs t ++ [(g, line)]) (partially_matched_pairs t)
    (total t).

(** The scan leaves everything about full matches, and the line count, as
    they are. *)
Definition same_full (t t' : tally) : Prop :=
  full_match t' = full_match t /\
  full_cat_match t' = full_cat_match t /\
  fully_matched_pairs t' = fully_matched_pairs t /\
  total t' = total t.

Definition flow_tally (f : flow) : tally :=
  match f with
  | Continue t => t
  | Break t => t
  end.

(** ** [compute_sentiment_accuracy] *)

(** [*_, x = l]: the last element of [l]; unpacking the empty list raises
    [ValueError]. *)
Definition unpack_last {A} (l : list A) : result A :=
  match last l with
  | Some x => Ok x
  | None => Raise ValueError
  end.

(** Lines 157-160: the body of the loop over the matched pairs.  The gold
    item always has its four elements, the last one the sentiment. *)
Definition sentiment_step (matched_sentiment : nat) (pair : matched_pair)
  : result nat :=
  let gold_s := pair.1.2 in
  pred_s ← unpack_last pair.2;
  Ok (if String.eqb gold_s pred_s then S matched_sentiment
      else matched_sentiment).

(** The count is a float in the source, one that only ever holds a whole
    number; it is kept as a [nat]. *)
Definition compute_sentiment_accuracy (matches : list matched_pair)
  : result nat :=
  for_each sentiment_step 0 matches.

(** ** [main], aspect mode *)

(** The seven numbers of the report, in the order they are printed. *)
Record report : Type := Report {
  full_precision : Q;
  full_recall : Q;
  partial_ratio : Q;
  full_category_accuracy : Q;
  partial_category_accuracy : Q;
  full_sentiment_accuracy : Q;
  partial_sentiment_accuracy : Q
}.

(** Lines 202-218: what [main] computes for [-acatsent] once the four path
    checks have passed, given the lines of the two files. *)
Definition main_acatsent (gold_file pred_file : list string) : result report :=
  '(gold, gold_size) ← get_gold_info gold_file;
  t ← compute_match pred_file gold;
  full_sent_match ← compute_sentiment_accuracy (fully_matched_pairs t);
  part_sent_match ← compute_sentiment_accuracy (partially_matched_pairs t);
  m1 ← true_div (full_match t) (total t);
  m2 ← true_div (full_match t) gold_size;
  m3 ← true_div (full_match t + partial_match t) (total t);
  m4 ← true_div (full_cat_match t) (total t);
  m5 ← true_div (full_cat_match t + partial_cat_match t) (total t);
  m6 ← true_div full_sent_match (length (fully_matched_pairs t));
  m7 ← true_div part_sent_match (length (partially_matched_pairs t));
  Ok (Report m1 m2 m3 m4 m5 m6 m7).

(** ** Further notions used in the statements *)

(** What a gold line is read as (lines 38-44): the document and the item
    appended to its entry. *)
Definition read_gold (raw : string) : result (string * gold_item) :=
  let line := fields raw in
  key ← getitem line 0;
  f3 ← getitem line 3; s ← int f3;
  f4 ← getitem line 4; e ← int f4;
  c ← getitem line 1;
  se ← getitem line 5;
  Ok (key, (s, e, c, se)).

(** The items of the gold lines about one document, in file order. *)
Definition items_for (key : string) (gold_file : list string)
  : list gold_item :=
  omap (fun raw => match read_gold raw with
                   | Ok (k, g) => if decide (k = key) then Some g else None
                   | Raise _ => None
                   end) gold_file.

(** The entry of a document after the gold lines with the items [gs]. *)
Definition add_items (d : doc_gold) (gs : list gold_item) : doc_gold :=
  DocGold (starts d ++ ((fun g : gold_item => g.1.1.1) <$> gs))
          (ends d ++ ((fun g : gold_item => g.1.1.2) <$> gs))
          (cats d ++ ((fun g : gold_item => g.1.2) <$> gs))
          (sents d ++ ((fun g : gold_item => g.2) <$> gs)).

Definition grow (o : option doc_gold) (gs : list gold_item) : option doc_gold :=
  match gs with
  | [] => o
  | _ :: _ => Some (add_items (default empty_doc o) gs)
  end.

(** The fields of a prediction line read as [read_prediction] reads them. *)
Definition parse_fields (line : list string) : result prediction :=
  f3 ← getitem line 3; start ← int f3;
  f4 ← getitem line 4; end_ ← int f4;
  category ← getitem line 1;
  key ← getitem line 0;
  Ok (Prediction key start end_ category).

(** A pair of [fully_matched_pairs] is sound: the gold item is an entry of
    the document of the prediction, with the offsets of the prediction. *)
Definition full_pair_sound (gold : gmap string doc_gold) (pair : matched_pair)
  : Prop :=
  exists p d i,
    parse_fields pair.2 = Ok p /\ gold !! p_doc p = Some d /\
    gold_at d i = Ok pair.1 /\
    pair.1.1.1.1 = p_start p /\ pair.1.1.1.2 = p_end p.

(** A pair of [partially_matched_pairs] is sound: the gold item is an entry
    of the document of the prediction, its offsets are not those of the
    prediction, and if it is a range it has an offset in common with the
    prediction. *)
Definition partial_pair_sound (gold : gmap string doc_gold)
  (pair : matched_pair) : Prop :=
  exists p d i,
    parse_fields pair.2 = Ok p /\ gold !! p_doc p = Some d /\
    gold_at d i = Ok pair.1 /\
    (pair.1.1.1.1, pair.1.1.1.2) <> (p_start p, p_end p) /\
    ((pair.1.1.1.1 <= pair.1.1.1.2)%Z ->
     overlaps (p_start p) (p_end p) pair.1.1.1.1 pair.1.1.1.2 = true).

(** The pairs of a tally are sound pairs of lines of the prediction file. *)
Definition pairs_sound (gold : gmap string doc_gold) (pred_file : list string)
  (t : tally) : Prop :=
  Forall (fun pair => full_pair_sound gold pair /\
                      exists raw, raw ∈ pred_file /\ pair.2 = fields raw)
    (fully_matched_pairs t) /\
  Forall (fun pair => partial_pair_sound gold pair /\
                      exists raw, raw ∈ pred_file /\ pair.2 = fields raw)
    (partially_matched_pairs t).

(** What the scan can record for a prediction: the gold item at the first
    position of its start, under the conditions of one of the branches. *)
Definition partial_hit (d : doc_gold) (start end_ : Z) (g : gold_item) : Prop :=
  exists i,
    index g.1.1.1 (starts d) = Ok i /\ gold_at d i = Ok g /\
    (((start <= g.1.1.1)%Z /\
      (g.1.1.2 = end_ \/ (g.1.1.2 <> end_ /\ (g.1.1.1 <= end_)%Z))) \/
     ((g.1.1.1 < start)%Z /\ (start < g.1.1.2 <= end_)%Z)).

(** A line that [compute_match] can process: it reads as a prediction and
    its document is a key of the gold dict. *)
Definition readable (gold : gmap string doc_gold) (raw : string) : Prop :=
  exists p, read_prediction raw = Ok p /\ is_Some (gold !! p_doc p).

(** What one prediction line can do to the counters: the line count goes
    up by one, [full_match] by at most one, and the category counters by no
    more than the match counters. *)
Definition line_step (t t' : tally) : Prop :=
  total t' = S (total t) /\
  full_match t <= full_match t' <= S (full_match t) /\
  full_cat_match t <= full_cat_match t' /\
  full_cat_match t' + full_match t <= full_cat_match t + full_match t' /\
  partial_match t <= partial_match t' /\
  partial_cat_match t <= partial_cat_match t' /\
  (full_cat_match t' + partial_cat_match t') + (full_match t + partial_match t)
  <= (full_cat_match t + partial_cat_match t)
     + (full_match t' + partial_match t').

(** The pair counts for [compute_sentiment_accuracy]: the sentiment of the
    gold item is the last field of the predicted line. *)
Definition agrees (pair : matched_pair) : bool :=
  match last pair.2 with
  | Some pred_s => String.eqb pair.1.2 pred_s
  | None => false
  end.

(** The quotient [a / b] of two counters, for [0 < b]. *)
Definition ratio (a b : nat) : Q := Z.of_nat a # Pos.of_nat b.

(** The number of pairs that [compute_sentiment_accuracy] counts. *)
Definition agreeing (matches : list matched_pair) : nat :=
  length (filter (fun pair => agrees pair = true) matches).

(** The report of a run with the tally [t] and the gold size [n]. *)
Definition report_of (t : tally) (n : nat) : report :=
  Report (ratio (full_match t) (total t))
         (ratio (full_match t) n)
         (ratio (full_match t + partial_match t) (total t))
         (ratio (full_cat_match t) (total t))
         (ratio (full_cat_match t + partial_cat_match t) (total t))
         (ratio (agreeing (fully_matched_pairs t))
                (length (fully_matched_pairs t)))
         (ratio (agreeing (partially_matched_pairs t))
                (length (partially_matched_pairs t))).

(** The sum of two tallies: counters added, lists appended. *)
Definition tally_add (t u : tally) : tally :=
  Tally (full_match t + full_match u) (partial_match t + partial_match u)
    (full_cat_match t + full_cat_match u)
    (partial_cat_match t + partial_cat_match u)
    (fully_matched_pairs t ++ fully_matched_pairs u)
    (partially_matched_pairs t ++ partially_matched_pairs u)
    (total t + total u).

Definition flow_add (t : tally) (f : flow) : flow :=
  match f with
  | Continue u => Continue (tally_add t u)
  | Break u => Break (tally_add t u)
  end.

(** A result with a function applied to what it returns. *)
Definition result_map {A B} (f : A -> B) (r : result A) : result B :=
  match r with
  | Ok a => Ok (f a)
  | Raise e => Raise e
  end.

End Evaluation.

(** ** Sample files *)

(** A gold file with two spans of one review, and the dict read from it. *)
Definition sample_gold_file : list string :=
  [tsv ["r1"; "food"; "pizza"; "0"; "5"; "pos"];
   tsv ["r1"; "service"; "waiter"; "10"; "16"; "neg"]].

Definition sample_doc : doc_gold :=
  DocGold [0; 10]%Z [5; 16]%Z ["food"; "service"] ["pos"; "neg"].

Definition sample_gold : gmap string doc_gold := {[ "r1" := sample_doc ]}.

(** Three predictions: the first gold span exactly, a span that ends with
    the second gold span, and a span after both. *)
Definition exact_line : string := tsv ["r1"; "food"; "pizza"; "0"; "5"; "pos"].
Definition late_start_line : string :=
  tsv ["r1"; "food"; "staff"; "8"; "16"; "neg"].
Definition apart_line : string :=
  tsv ["r1"; "ambience"; "music"; "20"; "25"; "pos"].

Definition sample_pred_file : list string :=
  [exact_line; late_start_line; apart_line].

(** A prediction about a review that the gold file does not have. *)
Definition stray_line : string := tsv ["r9"; "food"; "soup"; "0"; "4"; "pos"].

(** A gold file with two spans that start at the same offset, and a
    prediction with the offsets of the second. *)
Definition nested_gold_file : list string :=
  [tsv ["r1"; "food"; "pizza"; "0"; "5"; "pos"];
   tsv ["r1"; "food"; "pizza oven"; "0"; "10"; "neg"]].

Definition nested_pred_file : list string :=
  [tsv ["r1"; "food"; "pizza oven"; "0"; "10"; "neg"]].

(** A document with two gold spans that end at the same offset. *)
Definition shared_end_doc : doc_gold :=
  DocGold [5; 7]%Z [10; 10]%Z ["food"; "food"] ["pos"; "pos"].

(** The tally of the sample prediction file against the sample gold dict. *)
Definition sample_tally : tally :=
  Tally 1 1 1 0
    [((0, 5, "food", "pos")%Z, fields exact_line)]
    [((10, 16, "service", "neg")%Z, fields late_start_line)] 3.




(** A gold line whose end offset is not a number. *)
Definition bad_offset_line : string :=
  tsv ["r1"; "food"; "pizza"; "0"; "five"; "pos"].

Section Properties.

Variable py_int : string -> option Z.

Local Abbreviation int := (int py_int).
Local Abbreviation gold_line := (gold_line py_int).
Local Abbreviation get_gold_info := (get_gold_info py_int).
Local Abbreviation malformed := (malformed py_int).
Local Abbreviation read_prediction := (read_prediction py_int).
Local Abbreviation pred_line := (pred_line py_int).
Local Abbreviation compute_match := (compute_match py_int).

(** * Properties *)

(** ** Loops and exceptions *)

Lemma bind_ok {A B} (m : result A) (k : A -> result B) (b : B) :
  (x ← m; k x) = Ok b <-> exists a, m = Ok a /\ k a = Ok b.
Proof.
  destruct m as [a|e]; simpl; split.
  - intros Hk. exists a. auto.
  - intros (a' & Ha & Hk). congruence.
  - discriminate.
  - intros (a' & Ha & _). discriminate.
Qed.

Lemma ok_or_raises {A} (r : result A) : (exists a, r = Ok a) \/ raises r.
Proof. destruct r as [a|e]; [left|right]; eexists; reflexivity. Qed.

Lemma raises_not_ok {A} (r : result A) (a : A) : raises r -> r <> Ok a.
Proof. intros [e ->]. discriminate. Qed.

Lemma for_each_app {A S} (body : S -> A -> result S) (s : S) (l1 l2 : list A) :
  for_each body s (l1 ++ l2) = (s' ← for_each body s l1; for_each body s' l2).
Proof.
  revert s. induction l1 as [|x l1 IH]; intros s; simpl; [reflexivity|].
  destruct (body s x) as [s'|e]; simpl; [apply IH|reflexivity].
Qed.

(** A property of the state that every successful turn of the body keeps
    holds when the loop ends. *)
Lemma for_each_invariant {A S} (P : S -> Prop) (body : S -> A -> result S)
    (l : list A) :
  (forall s x s', P s -> body s x = Ok s' -> P s') ->
  forall s s', P s -> for_each body s l = Ok s' -> P s'.
Proof.
  intros Hbody. induction l as [|x l IH]; intros s s' Hs; simpl.
  - intros [= <-]. exact Hs.
  - destruct (body s x) as [s1|e] eqn:Hb; simpl; [|discriminate].
    apply IH. eapply Hbody; eassumption.
Qed.

(** The loop raises as soon as one turn does, whatever the state then. *)
Lemma for_each_raises {A S} (body : S -> A -> result S) (x : A) (l : list A) :
  x ∈ l -> (forall s, raises (body s x)) -> forall s, raises (for_each body s l).
Proof.
  intros Hx Hraise. induction l as [|y l IH]; intros s.
  - inversion Hx.
  - simpl. destruct (body s y) as [s1|e] eqn:Hb; simpl.
    + apply elem_of_cons in Hx as [->|Hx].
      * destruct (Hraise s) as [e He]. congruence.
      * apply IH, Hx.
    + exists e. reflexivity.
Qed.

(** ** The gold file *)

Lemma update_doc_insert (key : string) (f : doc_gold -> doc_gold)
    (d : doc_gold) (gold : gmap string doc_gold) :
  update_doc key f (<[key := d]> gold) = Ok (<[key := f d]> gold).
Proof.
  unfold update_doc, lookup_doc. rewrite lookup_insert_eq. simpl.
  by rewrite insert_insert_eq.
Qed.

(** Lines 39-40 leave the dict with an entry for the key: the one it had,
    or the empty one. *)
Lemma entry_created (gold : gmap string doc_gold) (key : string) :
  (if decide (gold !! key = None) then <[key := empty_doc]> gold else gold)
  = <[key := default empty_doc (gold !! key)]> gold.
Proof.
  destruct (gold !! key) as [d|] eqn:Hk; case_decide; try congruence; simpl.
  - by rewrite insert_id.
  - reflexivity.
Qed.

Lemma gold_line_read (gold : gmap string doc_gold) (raw : string) :
  malformed raw = false ->
  exists key c s e se,
    gold_line gold raw
    = Ok (<[key := add_span s e c se (default empty_doc (gold !! key))]> gold).
Proof.
  unfold malformed, gold_line, not_int, int.
  destruct (fields raw) as [|key [|c [|f2 [|f3 [|f4 [|se rest]]]]]];
    simpl; try discriminate.
  destruct (py_int f3) as [s|]; simpl; [|discriminate].
  destruct (py_int f4) as [e|]; simpl; [|discriminate].
  intros _. exists key, c, s, e, se.
  rewrite entry_created. rewrite update_doc_insert. simpl.
  rewrite update_doc_insert. simpl. rewrite update_doc_insert. simpl.
  rewrite update_doc_insert. reflexivity.
Qed.

Lemma gold_line_malformed (gold : gmap string doc_gold) (raw : string) :
  malformed raw = true -> raises (gold_line gold raw).
Proof.
  unfold malformed, gold_line, not_int, int, raises.
  destruct (fields raw) as [|key [|c [|f2 [|f3 [|f4 [|se rest]]]]]];
    simpl; eauto; rewrite !entry_created;
    try (destruct (py_int f3) as [s|]; simpl; eauto;
         rewrite update_doc_insert; simpl; eauto).
  - destruct (py_int f4) as [e|]; simpl; eauto.
    rewrite update_doc_insert; simpl. rewrite update_doc_insert; simpl. eauto.
  - destruct (py_int f4) as [e|]; simpl; eauto. discriminate.
Qed.

Lemma gold_size_insert (gold : gmap string doc_gold) (key : string)
    (d' : doc_gold) :
  gold_size (<[key := d']> gold)
  + length (cats (default empty_doc (gold !! key)))
  = gold_size gold + length (cats d').
Proof.
  unfold gold_size. destruct (gold !! key) as [d|] eqn:Hk; simpl.
  - rewrite (map_fold_delete_L _ _ key d gold); [|intros; lia|exact Hk].
    rewrite <- (insert_delete_eq gold).
    rewrite map_fold_insert_L; [lia|intros; lia|apply lookup_delete_eq].
  - rewrite map_fold_insert_L; [lia|intros; lia|exact Hk].
Qed.

Lemma gold_lines_read (gold_file : list string) :
  Forall (fun raw => malformed raw = false) gold_file ->
  forall gold, exists gold',
    for_each gold_line gold gold_file = Ok gold' /\
    gold_size gold' = gold_size gold + length gold_file.
Proof.
  induction 1 as [|raw rest Hraw _ IH]; intros gold; simpl.
  - exists gold. split; [reflexivity|lia].
  - destruct (gold_line_read gold raw Hraw) as (key & c & s & e & se & ->).
    simpl. edestruct IH as (gold' & -> & Hsize). exists gold'.
    split; [reflexivity|]. rewrite Hsize.
    pose proof (gold_size_insert gold key
      (add_span s e c se (default empty_doc (gold !! key)))) as Hins.
    simpl in Hins. rewrite length_app in Hins. simpl in Hins. lia.
Qed.

Lemma gold_lines_malformed (gold_file : list string) :
  Exists (fun raw => malformed raw = true) gold_file ->
  forall gold, raises (for_each gold_line gold gold_file).
Proof.
  intros (raw & Hin & Hraw)%Exists_exists.
  apply (for_each_raises gold_line raw); [exact Hin|].
  intros gold. apply gold_line_malformed, Hraw.
Qed.

Lemma malformed_dec (gold_file : list string) :
  Exists (fun raw => malformed raw = true) gold_file \/
  Forall (fun raw => malformed raw = false) gold_file.
Proof.
  induction gold_file as [|raw rest [IH|IH]].
  - right. constructor.
  - left. by constructor 2.
  - destruct (malformed raw) eqn:Hraw.
    + left. by constructor 1.
    + right. by constructor.
Qed.

Lemma aligned_add_span (s e : Z) (c se : string) (d : doc_gold) :
  aligned d ->
  aligned (add_span s e c se d) /\ 1 <= length (starts (add_span s e c se d)).
Proof.
  unfold aligned. intros (H1 & H2 & H3). simpl. rewrite !length_app. simpl.
  lia.
Qed.

Lemma gold_line_aligned (gold gold' : gmap string doc_gold) (raw : string) :
  entries_aligned gold -> gold_line gold raw = Ok gold' ->
  entries_aligned gold'.
Proof.
  intros Hgold Hline. destruct (malformed raw) eqn:Hraw.
  - exfalso. revert Hline. apply raises_not_ok, gold_line_malformed, Hraw.
  - destruct (gold_line_read gold raw Hraw) as (key & c & s & e & se & Hread).
    rewrite Hread in Hline. injection Hline as <-.
    intros key' d'. rewrite lookup_insert. case_decide as Hkey.
    + intros [= <-]. apply aligned_add_span.
      destruct (gold !! key) as [d|] eqn:Hk; simpl.
      * apply (Hgold key d Hk).
      * repeat split.
    + apply Hgold.
Qed.

Lemma gold_lines_aligned (gold_file : list string)
    (gold : gmap string doc_gold) :
  for_each gold_line ∅ gold_file = Ok gold -> entries_aligned gold.
Proof.
  apply (for_each_invariant entries_aligned gold_line).
  - intros g raw g' Hg Hline. eapply gold_line_aligned; eassumption.
  - intros key d. rewrite lookup_empty. discriminate.
Qed.

Lemma get_gold_info_ok (gold_file : list string)
    (gold : gmap string doc_gold) (n : nat) :
  get_gold_info gold_file = Ok (gold, n) <->
  for_each gold_line ∅ gold_file = Ok gold /\ n = gold_size gold.
Proof.
  unfold get_gold_info.
  destruct (for_each gold_line ∅ gold_file) as [g|e]; simpl.
  - split; [intros [= <- <-]; auto|intros [[= <-] ->]; reflexivity].
  - split; [discriminate|intros [[=] _]].
Qed.

(** C8.  [get_gold_info] raises exactly when some line of the gold file has
    fewer than six tab-separated fields or a start or end field that [int]
    rejects; on every other file it returns a dict together with the
    [gold_size] of that dict, the sum of the lengths of its entries, and
    that number is the number of lines of the file.  Whatever it returns,
    the number returned is the [gold_size] of the dict returned. *)
Theorem get_gold_info_fails_iff_malformed (gold_file : list string) :
  (raises (get_gold_info gold_file) <->
   Exists (fun raw => malformed raw = true) gold_file) /\
  (Forall (fun raw => malformed raw = false) gold_file ->
   exists gold,
     get_gold_info gold_file = Ok (gold, length gold_file) /\
     gold_size gold = length gold_file) /\
  (forall gold n, get_gold_info gold_file = Ok (gold, n) ->
                  n = gold_size gold /\ n = length gold_file).
Proof.
  assert (Hgood : Forall (fun raw => malformed raw = false) gold_file ->
    exists gold, get_gold_info gold_file = Ok (gold, length gold_file) /\
                 gold_size gold = length gold_file).
  { intros Hall. destruct (gold_lines_read gold_file Hall ∅) as (g & Hg & Hsz).
    assert (Hlen : gold_size g = length gold_file).
    { rewrite Hsz. unfold gold_size. rewrite map_fold_empty. reflexivity. }
    exists g. split; [|exact Hlen].
    apply get_gold_info_ok. split; [exact Hg|]. symmetry. exact Hlen. }
  split; [split|split].
  - intros Hfail. destruct (malformed_dec gold_file) as [Hex|Hall]; [exact Hex|].
    destruct (Hgood Hall) as (g & Hg & _). exfalso. revert Hg.
    apply raises_not_ok, Hfail.
  - intros Hex. destruct (gold_lines_malformed gold_file Hex ∅) as [e He].
    exists e. unfold get_gold_info. rewrite He. reflexivity.
  - exact Hgood.
  - intros gold n Hrun.
    destruct (malformed_dec gold_file) as [Hex|Hall].
    + exfalso. destruct (gold_lines_malformed gold_file Hex ∅) as [e He].
      unfold get_gold_info in Hrun. rewrite He in Hrun. discriminate.
    + destruct (Hgood Hall) as (g & Hg & Hlen). rewrite Hg in Hrun.
      injection Hrun as <- <-. auto.
Qed.

(** C10.  In the dict that [get_gold_info] returns, the four lists of every
    document have the same length, and that length is at least one. *)
Theorem get_gold_info_entries_parallel (gold_file : list string)
    (gold : gmap string doc_gold) (n : nat) (key : string) (d : doc_gold) :
  get_gold_info gold_file = Ok (gold, n) ->
  gold !! key = Some d ->
  length (starts d) = length (ends d) /\
  length (ends d) = length (cats d) /\
  length (cats d) = length (sents d) /\
  1 <= length (starts d).
Proof.
  intros [Hrun _]%get_gold_info_ok Hkey.
  destruct (gold_lines_aligned gold_file gold Hrun key d Hkey)
    as ((H1 & H2 & H3) & Hpos).
  auto.
Qed.

(** ** The matcher: what the scan can change *)

Lemma for_break_invariant {A} (P : tally -> Prop)
    (body : A -> tally -> result flow) (l : list A) :
  (forall x t f, P t -> body x t = Ok f -> P (flow_tally f)) ->
  forall t t', P t -> for_break body l t = Ok t' -> P t'.
Proof.
  intros Hbody. induction l as [|x l IH]; intros t t' Ht; simpl.
  - intros [= <-]. exact Ht.
  - destruct (body x t) as [f|e] eqn:Hb; simpl; [|discriminate].
    specialize (Hbody x t f Ht Hb). destruct f as [t1|t1]; simpl in Hbody.
    + apply IH, Hbody.
    + intros [= <-]. exact Hbody.
Qed.

Lemma record_partial_ok (d : doc_gold) (i : nat) (category : string)
    (line : list string) (t t' : tally) :
  record_partial d i category line t = Ok t' <->
  exists g c, gold_at d i = Ok g /\ getitem (cats d) i = Ok c /\
              t' = with_partial g c category line t.
Proof.
  unfold record_partial, with_partial.
  destruct (gold_at d i) as [g|e]; simpl.
  - destruct (getitem (cats d) i) as [c|e]; simpl.
    + split; [intros [= <-]; eauto|intros (g' & c' & [= <-] & [= <-] & ->)].
      reflexivity.
    + split; [discriminate|intros (g' & c' & _ & [=] & _)].
  - split; [discriminate|intros (g' & c' & [=] & _)].
Qed.

Lemma record_full_ok (d : doc_gold) (i : nat) (category : string)
    (line : list string) (t t' : tally) :
  record_full d i category line t = Ok t' <->
  exists g c, gold_at d i = Ok g /\ getitem (cats d) i = Ok c /\
              t' = with_full g c category line t.
Proof.
  unfold record_full, with_full.
  destruct (getitem (cats d) i) as [c|e]; simpl.
  - destruct (gold_at d i) as [g|e]; simpl.
    + split; [intros [= <-]; eauto|intros (g' & c' & [= <-] & [= <-] & ->)].
      reflexivity.
    + split; [discriminate|intros (g' & c' & [=] & _)].
  - split; [discriminate|intros (g' & c' & _ & [=] & _)].
Qed.

Section ScanInvariant.

(** A property of the tally that recording a partial match keeps. *)
Variable P : tally -> Prop.
Variables (category : string) (line : list string).
Hypothesis P_partial :
  forall g c t, P t -> P (with_partial g c category line t).

Lemma record_partial_invariant (d : doc_gold) (i : nat) (t t' : tally) :
  P t -> record_partial d i category line t = Ok t' -> P t'.
Proof.
  intros Ht (g & c & _ & _ & ->)%record_partial_ok. apply P_partial, Ht.
Qed.

Lemma scan_ends_invariant (d : doc_gold) (i : nat) (s_pos end_ : Z)
    (es : list Z) (t t' : tally) (m : bool) :
  P t -> scan_ends d i s_pos end_ category line es t = Ok (m, t') -> P t'.
Proof.
  intros Ht. induction es as [|e_pos es IH]; simpl.
  - intros [= _ <-]. exact Ht.
  - destruct ((s_pos <=? end_)%Z && (end_ <=? e_pos)%Z); [|exact IH].
    destruct (record_partial d i category line t) as [t1|e] eqn:Hrec; simpl;
      [|discriminate].
    intros [= _ <-]. eapply record_partial_invariant; eassumption.
Qed.

Lemma scan_after_invariant (d : doc_gold) (start end_ s_pos : Z)
    (t : tally) (f : flow) :
  P t -> scan_after d start end_ category line s_pos t = Ok f ->
  P (flow_tally f).
Proof.
  intros Ht. unfold scan_after.
  destruct (s_pos <? start)%Z; [|intros [= <-]; exact Ht].
  destruct (index s_pos (starts d)) as [i|e]; simpl; [|discriminate].
  destruct (getitem (ends d) i) as [e_i|e]; simpl; [|discriminate].
  destruct ((start <? e_i)%Z && (e_i <=? end_)%Z); [|intros [= <-]; exact Ht].
  destruct (record_partial d i category line t) as [t1|e] eqn:Hrec; simpl;
    [|discriminate].
  intros [= <-]. simpl. eapply record_partial_invariant; eassumption.
Qed.

Lemma scan_body_invariant (d : doc_gold) (start end_ s_pos : Z)
    (t : tally) (f : flow) :
  P t -> scan_body d start end_ category line s_pos t = Ok f ->
  P (flow_tally f).
Proof.
  intros Ht. unfold scan_body.
  destruct (start <=? s_pos)%Z; [|apply scan_after_invariant, Ht].
  destruct (index s_pos (starts d)) as [i|e]; simpl; [|discriminate].
  destruct (getitem (ends d) i) as [e_i|e]; simpl; [|discriminate].
  destruct (e_i =? end_)%Z.
  - destruct (record_partial d i category line t) as [t1|e] eqn:Hrec; simpl;
      [|discriminate].
    intros [= <-]. simpl. eapply record_partial_invariant; eassumption.
  - destruct (scan_ends d i s_pos end_ category line (drop i (ends d)) t)
      as [[m t1]|e] eqn:Hends; simpl; [|discriminate].
    apply scan_ends_invariant in Hends; [|exact Ht].
    destruct m; [intros [= <-]; exact Hends|].
    apply scan_after_invariant, Hends.
Qed.

Lemma scan_invariant (d : doc_gold) (start end_ : Z) (t t' : tally) :
  P t -> scan d start end_ category line t = Ok t' -> P t'.
Proof.
  apply for_break_invariant. intros s_pos t1 f. apply scan_body_invariant.
Qed.

End ScanInvariant.

(** ** The matcher: one prediction line *)

Lemma pred_line_read (gold : gmap string doc_gold) (t : tally) (raw : string) :
  pred_line gold t raw =
  (p ← read_prediction raw;
   d ← lookup_doc gold (p_doc p);
   match_line d (p_start p) (p_end p) (p_category p) (fields raw)
     (count_line t)).
Proof.
  unfold pred_line, read_prediction.
  destruct (getitem (fields raw) 3) as [f3|e]; simpl; [|reflexivity].
  destruct (int f3) as [start|e]; simpl; [|reflexivity].
  destruct (getitem (fields raw) 4) as [f4|e]; simpl; [|reflexivity].
  destruct (int f4) as [end_|e]; simpl; [|reflexivity].
  destruct (getitem (fields raw) 1) as [category|e]; simpl; [|reflexivity].
  destruct (getitem (fields raw) 0) as [key|e]; simpl; reflexivity.
Qed.

Lemma pred_line_ok (gold : gmap string doc_gold) (t t' : tally) (raw : string) :
  pred_line gold t raw = Ok t' <->
  exists p d,
    read_prediction raw = Ok p /\ gold !! p_doc p = Some d /\
    match_line d (p_start p) (p_end p) (p_category p) (fields raw)
      (count_line t) = Ok t'.
Proof.
  rewrite pred_line_read, bind_ok. unfold lookup_doc. split.
  - intros (p & Hp & Hrest). exists p.
    destruct (gold !! p_doc p) as [d|]; simpl in Hrest; [|discriminate].
    exists d. auto.
  - intros (p & d & Hp & Hd & Hm). exists p. rewrite Hd. auto.
Qed.

(** The first field of a line that reads as a prediction is its document. *)
Lemma read_prediction_doc (raw : string) (p : prediction) :
  read_prediction raw = Ok p -> head (fields raw) = Some (p_doc p).
Proof.
  unfold read_prediction.
  destruct (getitem (fields raw) 3) as [f3|e]; simpl; [|discriminate].
  destruct (int f3) as [start|e]; simpl; [|discriminate].
  destruct (getitem (fields raw) 4) as [f4|e]; simpl; [|discriminate].
  destruct (int f4) as [end_|e]; simpl; [|discriminate].
  destruct (getitem (fields raw) 1) as [category|e]; simpl; [|discriminate].
  unfold getitem. destruct (fields raw) as [|key rest]; simpl; [discriminate|].
  intros [= <-]. reflexivity.
Qed.

(** Either the exact-start probe records a full match, or the line is left
    to the scan. *)
Lemma match_line_cases (d : doc_gold) (start end_ : Z) (category : string)
    (line : list string) (t t' : tally) :
  match_line d start end_ category line t = Ok t' ->
  (exists i, index start (starts d) = Ok i /\ getitem (ends d) i = Ok end_ /\
             record_full d i category line t = Ok t') \/
  scan d start end_ category line t = Ok t'.
Proof.
  unfold match_line. destruct (contains start (starts d)); [|by right].
  destruct (index start (starts d)) as [i|e]; simpl; [|discriminate].
  destruct (getitem (ends d) i) as [e_i|e] eqn:He; simpl; [|discriminate].
  destruct (e_i =? end_)%Z eqn:Hend; [|by right].
  apply Z.eqb_eq in Hend as ->. intros Hrec. left. exists i. auto.
Qed.

Lemma counts_agree_partial (category : string) (line : list string)
    (g : gold_item) (c : string) (t : tally) :
  counts_agree t -> counts_agree (with_partial g c category line t).
Proof.
  unfold counts_agree. intros [Hf Hp]. simpl. rewrite length_app. simpl. lia.
Qed.

Lemma counts_agree_full (category : string) (line : list string)
    (g : gold_item) (c : string) (t : tally) :
  counts_agree t -> counts_agree (with_full g c category line t).
Proof.
  unfold counts_agree. intros [Hf Hp]. simpl. rewrite length_app. simpl. lia.
Qed.

Lemma pred_line_counts_agree (gold : gmap string doc_gold) (t t' : tally)
    (raw : string) :
  counts_agree t -> pred_line gold t raw = Ok t' -> counts_agree t'.
Proof.
  intros Ht (p & d & _ & _ & Hm)%pred_line_ok.
  assert (Hc : counts_agree (count_line t)) by exact Ht.
  apply match_line_cases in Hm as [(i & _ & _ & Hfull)|Hscan].
  - apply record_full_ok in Hfull as (g & c & _ & _ & ->).
    apply counts_agree_full, Hc.
  - revert Hscan. apply scan_invariant; [|exact Hc].
    intros g c t1. apply counts_agree_partial.
Qed.

(** C9.  After a run of [compute_match] that returns, [full_match] is the
    length of [fully_matched_pairs] and [partial_match] is the length of
    [partially_matched_pairs]. *)
Theorem compute_match_counts_are_lengths (pred_file : list string)
    (gold : gmap string doc_gold) (t : tally) :
  compute_match pred_file gold = Ok t ->
  full_match t = length (fully_matched_pairs t) /\
  partial_match t = length (partially_matched_pairs t).
Proof.
  unfold compute_match.
  apply (for_each_invariant counts_agree (pred_line gold)).
  - intros t1 raw t2. apply pred_line_counts_agree.
  - split; reflexivity.
Qed.

Lemma scan_same_full (d : doc_gold) (start end_ : Z) (category : string)
    (line : list string) (t t' : tally) :
  scan d start end_ category line t = Ok t' -> same_full t t'.
Proof.
  apply (scan_invariant (same_full t) category line).
  - unfold same_full. intros g c t1 H. exact H.
  - repeat split.
Qed.

(** C4.  A prediction line that is counted as a full match moves exactly
    one category counter.  The matched gold span is the entry of the
    document of the prediction at the first position of the start of the
    prediction; it ends where the prediction ends, and it is the gold item
    recorded with the line.  [full_cat_match] moves when the category of
    that entry, [cats[i]], is the category of the prediction, and
    [partial_cat_match] moves when it is not. *)
Theorem full_match_moves_one_category_counter (gold : gmap string doc_gold)
    (t t' : tally) (raw : string) :
  pred_line gold t raw = Ok t' ->
  full_match t' = S (full_match t) ->
  exists (p : prediction) (d : doc_gold) (i : nat) (s e : Z) (c se : string),
    read_prediction raw = Ok p /\
    gold !! p_doc p = Some d /\
    index (p_start p) (starts d) = Ok i /\
    ends d !! i = Some (p_end p) /\
    cats d !! i = Some c /\
    gold_at d i = Ok (s, e, c, se) /\
    fully_matched_pairs t'
    = (fully_matched_pairs t ++ [((s, e, c, se), fields raw)])%list /\
    (c = p_category p ->
     full_cat_match t' = S (full_cat_match t) /\
     partial_cat_match t' = partial_cat_match t) /\
    (c <> p_category p ->
     full_cat_match t' = full_cat_match t /\
     partial_cat_match t' = S (partial_cat_match t)).
Proof.
  intros (p & d & Hp & Hd & Hm)%pred_line_ok Hfull.
  apply match_line_cases in Hm as [(i & Hi & He & Hrec)|Hscan].
  - apply record_full_ok in Hrec as ([[[s e] c] se] & c' & Hg & Hc & ->).
    assert (c' = c) as ->.
    { unfold gold_at in Hg.
      destruct (getitem (starts d) i); simpl in Hg; [|discriminate].
      destruct (getitem (ends d) i); simpl in Hg; [|discriminate].
      rewrite Hc in Hg. simpl in Hg.
      destruct (getitem (sents d) i); simpl in Hg; congruence. }
    exists p, d, i, s, e, c, se. simpl.
    split; [exact Hp|]. split; [exact Hd|]. split; [exact Hi|].
    split. { unfold getitem in He. destruct (ends d !! i); congruence. }
    split. { unfold getitem in Hc. destruct (cats d !! i); congruence. }
    split; [exact Hg|]. split; [reflexivity|].
    split; intros Hcat.
    + apply String.eqb_eq in Hcat. rewrite Hcat. auto.
    + apply String.eqb_neq in Hcat. rewrite Hcat. auto.
  - apply scan_same_full in Hscan as (Hsame & _). simpl in Hsame. lia.
Qed.

(** C7.  A prediction file with a line whose document is not a key of the
    gold dict makes [compute_match] raise: no tally is returned, so the line
    is neither skipped nor counted as unmatched.  When the lines before it
    are processed without an exception and the line itself reads as a
    prediction, the exception is the [KeyError] of the lookup. *)
Theorem unknown_document_raises (pred_file : list string)
    (gold : gmap string doc_gold) (raw key : string) :
  raw ∈ pred_file ->
  head (fields raw) = Some key ->
  gold !! key = None ->
  raises (compute_match pred_file gold) /\
  (forall before after t p,
     pred_file = (before ++ raw :: after)%list ->
     compute_match before gold = Ok t ->
     read_prediction raw = Ok p ->
     compute_match pred_file gold = Raise (KeyError key)).
Proof.
  intros Hin Hkey Hgold.
  assert (Hline : forall t p, read_prediction raw = Ok p ->
                              pred_line gold t raw = Raise (KeyError key)).
  { intros t p Hp. rewrite pred_line_read, Hp. simpl.
    apply read_prediction_doc in Hp. rewrite Hkey in Hp.
    injection Hp as <-. unfold lookup_doc. rewrite Hgold. reflexivity. }
  split.
  - apply (for_each_raises (pred_line gold) raw); [exact Hin|].
    intros t. destruct (read_prediction raw) as [p|e] eqn:Hp.
    + exists (KeyError key). eapply Hline. reflexivity.
    + exists e. rewrite pred_line_read, Hp. reflexivity.
  - intros before after t p -> Hbefore Hp. unfold compute_match in *.
    rewrite for_each_app, Hbefore. simpl. rewrite (Hline t p Hp). reflexivity.
Qed.

(** ** The matcher: predictions away from every gold span *)

Lemma index_lookup (x : Z) (l : list Z) (i : nat) :
  index x l = Ok i -> l !! i = Some x.
Proof.
  revert i. induction l as [|y l IH]; intros i; simpl; [discriminate|].
  destruct (y =? x)%Z eqn:Hy.
  - intros [= <-]. apply Z.eqb_eq in Hy as ->. reflexivity.
  - destruct (index x l) as [j|e]; simpl; [|discriminate].
    intros [= <-]. simpl. apply IH. reflexivity.
Qed.

Lemma index_elem_of (x : Z) (l : list Z) :
  x ∈ l -> exists i, index x l = Ok i.
Proof.
  induction l as [|y l IH]; [intros H; inversion H|].
  intros Hx. simpl. destruct (y =? x)%Z eqn:Hy; [by exists 0|].
  apply elem_of_cons in Hx as [->|Hx]; [rewrite Z.eqb_refl in Hy; discriminate|].
  destruct (IH Hx) as [i ->]. by exists (S i).
Qed.

Lemma contains_elem_of (x : Z) (l : list Z) :
  contains x l = true -> x ∈ l.
Proof.
  unfold contains. intros (y & Hy & ->%Z.eqb_eq)%existsb_exists.
  apply list_elem_of_In, Hy.
Qed.




Section Apart.

Variables (d : doc_gold) (start end_ : Z).
Variables (category : string) (line : list string).
Hypothesis d_aligned : aligned d.
Hypothesis d_ordered : Forall (fun g => (g.1 <= g.2)%Z) (spans d).
Hypothesis d_apart :
  Forall (fun g => overlaps start end_ g.1 g.2 = false) (spans d).




End Apart.


(** ** The matcher: exact spans and the scan that goes on *)

Lemma index_contains (x : Z) (l : list Z) (i : nat) :
  index x l = Ok i -> contains x l = true.
Proof.
  intros Hi%index_lookup. apply existsb_exists. exists x.
  split; [|apply Z.eqb_refl]. eapply list_elem_of_In, list_elem_of_lookup_2, Hi.
Qed.

Lemma gold_at_aligned (d : doc_gold) (i : nat) (s e : Z) :
  aligned d -> starts d !! i = Some s -> ends d !! i = Some e ->
  exists c se, getitem (cats d) i = Ok c /\ gold_at d i = Ok (s, e, c, se).
Proof.
  intros (H1 & H2 & H3) Hs He. unfold gold_at, getitem. rewrite Hs, He.
  destruct (lookup_lt_is_Some_2 (cats d) i) as [c Hc].
  { rewrite <- H2. eapply lookup_lt_Some, He. }
  destruct (lookup_lt_is_Some_2 (sents d) i) as [se Hse].
  { rewrite <- H3. eapply lookup_lt_Some, Hc. }
  exists c, se. rewrite Hc, Hse. auto.
Qed.

(** The exact-start probe: when the first gold span that starts where the
    prediction starts also ends where it ends, the line is a full match. *)
Lemma first_span_exact_is_full (d : doc_gold) (start end_ : Z)
    (category : string) (line : list string) (t : tally) (i : nat)
    (g : gold_item) (c : string) :
  index start (starts d) = Ok i ->
  getitem (ends d) i = Ok end_ ->
  gold_at d i = Ok g -> getitem (cats d) i = Ok c ->
  match_line d start end_ category line t = Ok (with_full g c category line t).
Proof.
  intros Hi He Hg Hc. unfold match_line.
  rewrite (index_contains _ _ _ Hi), Hi. simpl. rewrite He. simpl.
  rewrite Z.eqb_refl. apply record_full_ok. eauto.
Qed.

(** X13.  With no start shared by two gold spans of the document, a
    prediction with the offsets of a gold span is a full match, recorded
    with that gold span: the entry of the document at the position of the
    span, with the category and the sentiment that the document has
    there; the category counter that moves is decided by that category. *)
Lemma exact_span_is_full_without_shared_starts (d : doc_gold) (start end_ : Z)
    (category : string) (line : list string) (t : tally) :
  aligned d -> NoDup (starts d) -> (start, end_) ∈ spans d ->
  exists i c se,
    starts d !! i = Some start /\ ends d !! i = Some end_ /\
    cats d !! i = Some c /\ sents d !! i = Some se /\
    match_line d start end_ category line t
    = Ok (with_full (start, end_, c, se) c category line t).
Proof.
  intros Hal Hnd (j & Hj)%list_elem_of_lookup_1.
  apply lookup_zip_with_Some in Hj as (s & e & [= <- <-] & Hs & He).
  destruct (index_elem_of start (starts d)) as (i & Hi).
  { eapply list_elem_of_lookup_2, Hs. }
  assert (i = j) as ->.
  { eapply NoDup_lookup; [exact Hnd|apply index_lookup, Hi|exact Hs]. }
  destruct (gold_at_aligned d j start end_ Hal Hs He) as (c & se & Hc & Hg).
  exists j, c, se. split; [exact Hs|]. split; [exact He|].
  assert (Hcats : cats d !! j = Some c).
  { unfold getitem in Hc. destruct (cats d !! j); congruence. }
  split; [exact Hcats|]. split.
  - unfold gold_at, getitem in Hg. rewrite Hs, He, Hcats in Hg. simpl in Hg.
    destruct (sents d !! j); simpl in Hg; congruence.
  - eapply first_span_exact_is_full; eauto.
    unfold getitem. rewrite He. reflexivity.
Qed.

(** C2.  In the scan, when the prediction starts at or before the current
    gold start and the first gold span with that start ends where the
    prediction ends, the body records a partial match and goes on with the
    next gold start; the rest of the scan runs on the updated tally.  So one
    prediction can be recorded as a partial match more than once: the
    prediction 3-10 is recorded twice against the gold spans 5-10 and 7-10. *)
Theorem branch_a_exact_end_continues (d : doc_gold) (start end_ s_pos : Z)
    (category : string) (line : list string) (rest : list Z) (t : tally)
    (i : nat) (g : gold_item) (c : string) :
  (start <= s_pos)%Z ->
  index s_pos (starts d) = Ok i ->
  getitem (ends d) i = Ok end_ ->
  gold_at d i = Ok g -> getitem (cats d) i = Ok c ->
  let t' := with_partial g c category line t in
  partial_match t' = S (partial_match t) /\
  partially_matched_pairs t' = (partially_matched_pairs t ++ [(g, line)])%list /\
  scan_body d start end_ category line s_pos t = Ok (Continue t') /\
  for_break (scan_body d start end_ category line) (s_pos :: rest) t
  = for_break (scan_body d start end_ category line) rest t' /\
  exists t2,
    match_line shared_end_doc 3 10 category line tally0 = Ok t2 /\
    partial_match t2 = 2 /\ length (partially_matched_pairs t2) = 2.
Proof.
  intros Hle Hi He Hg Hc t'.
  assert (Hbody : scan_body d start end_ category line s_pos t
                  = Ok (Continue t')).
  { unfold scan_body. destruct (Z.leb_spec start s_pos); [|lia].
    rewrite Hi. simpl. rewrite He. simpl. rewrite Z.eqb_refl.
    assert (record_partial d i category line t = Ok t') as ->; [|reflexivity].
    apply record_partial_ok. eauto. }
  split; [reflexivity|]. split; [reflexivity|]. split; [exact Hbody|].
  split; [simpl; rewrite Hbody; reflexivity|].
  eexists. split; [reflexivity|]. split; reflexivity.
Qed.

(** * Further properties *)

Local Abbreviation read_gold := (read_gold py_int).
Local Abbreviation items_for := (items_for py_int).
Local Abbreviation parse_fields := (parse_fields py_int).
Local Abbreviation full_pair_sound := (full_pair_sound py_int).
Local Abbreviation partial_pair_sound := (partial_pair_sound py_int).
Local Abbreviation main_acatsent := (main_acatsent py_int).
Local Abbreviation readable := (readable py_int).
Local Abbreviation pairs_sound := (pairs_sound py_int).

(** ** The gold dict, entry by entry *)

Lemma gold_line_ok (gold gold' : gmap string doc_gold) (raw : string) :
  gold_line gold raw = Ok gold' <->
  exists key s e c se,
    read_gold raw = Ok (key, (s, e, c, se)) /\
    gold' = <[key := add_span s e c se (default empty_doc (gold !! key))]> gold.
Proof.
  unfold gold_line, read_gold, int.
  destruct (fields raw) as [|key [|c [|f2 [|f3 [|f4 [|se rest]]]]]]; simpl;
    rewrite ?entry_created;
    repeat first
      [ rewrite update_doc_insert
      | progress simpl
      | match goal with
        | |- context [py_int ?f] => destruct (py_int f) as [?|] eqn:?
        end ];
    try (split; [discriminate|intros (?&?&?&?&?&[=]&_)]).
  split.
  - intros [= <-]. eauto 10.
  - intros (?&?&?&?&?&[= <- <- <- <- <-]&->). reflexivity.
Qed.

Lemma add_items_add_span (s e : Z) (c se : string) (d : doc_gold)
    (gs : list gold_item) :
  add_items (add_span s e c se d) gs = add_items d ((s, e, c, se) :: gs).
Proof. unfold add_items, add_span. simpl. by rewrite <- !app_assoc. Qed.

Lemma grow_add_span (s e : Z) (c se : string) (o : option doc_gold)
    (gs : list gold_item) :
  grow (Some (add_span s e c se (default empty_doc o))) gs
  = grow o ((s, e, c, se) :: gs).
Proof.
  destruct gs as [|g gs]; simpl; [reflexivity|].
  by rewrite add_items_add_span.
Qed.

Lemma gold_lines_grow (gold_file : list string) :
  forall gold gold' : gmap string doc_gold,
    for_each gold_line gold gold_file = Ok gold' ->
    forall key, gold' !! key = grow (gold !! key) (items_for key gold_file).
Proof.
  induction gold_file as [|raw rest IH]; intros gold gold'; simpl.
  - intros [= <-] key. reflexivity.
  - intros (gold1 & Hline & Hrest)%bind_ok key.
    apply gold_line_ok in Hline as (k & s & e & c & se & Hread & ->).
    rewrite (IH _ _ Hrest key). unfold items_for. simpl. rewrite Hread.
    rewrite lookup_insert. destruct (decide (k = key)) as [->|Hne].
    + apply grow_add_span.
    + reflexivity.
Qed.

(** X1.  [get_gold_info] keeps the gold lines as they come: a document has
    an entry exactly when some line is about it, and the four lists of the
    entry are the starts, ends, categories and sentiments of those lines in
    file order, repeated lines included. *)
Theorem get_gold_info_keeps_file_order (gold_file : list string)
    (gold : gmap string doc_gold) (n : nat) (key : string) :
  get_gold_info gold_file = Ok (gold, n) ->
  (items_for key gold_file = [] -> gold !! key = None) /\
  (items_for key gold_file <> [] ->
   exists d,
     gold !! key = Some d /\
     starts d = (fun g : gold_item => g.1.1.1) <$> items_for key gold_file /\
     ends d = (fun g : gold_item => g.1.1.2) <$> items_for key gold_file /\
     cats d = (fun g : gold_item => g.1.2) <$> items_for key gold_file /\
     sents d = (fun g : gold_item => g.2) <$> items_for key gold_file).
Proof.
  intros [Hrun _]%get_gold_info_ok.
  pose proof (gold_lines_grow gold_file ∅ gold Hrun key) as Hkey.
  rewrite lookup_empty in Hkey. split.
  - intros Hnone. rewrite Hnone in Hkey. exact Hkey.
  - intros Hsome. destruct (items_for key gold_file) as [|g gs]; [done|].
    eexists. split; [exact Hkey|]. repeat split.
Qed.

Lemma gold_line_raise_kind (gold : gmap string doc_gold) (raw : string) :
  malformed raw = true ->
  gold_line gold raw
  = Raise (if not_int py_int (fields raw !! 3) || not_int py_int (fields raw !! 4)
           then ValueError else IndexError).
Proof.
  unfold malformed, gold_line, not_int, int.
  destruct (fields raw) as [|key [|c [|f2 [|f3 [|f4 [|se rest]]]]]]; simpl;
    rewrite ?entry_created;
    repeat first
      [ rewrite update_doc_insert
      | progress simpl
      | match goal with
        | |- context [py_int ?f] => destruct (py_int f) as [?|] eqn:?
        end ];
    try reflexivity; discriminate.
Qed.

(** X2.  What [get_gold_info] raises is decided by the first gold line it
    cannot read: [ValueError] when [int] rejects its start or end field,
    [IndexError] when it is only short of fields. *)
Theorem get_gold_info_error_kind (good rest : list string) (raw : string) :
  Forall (fun l => malformed l = false) good ->
  malformed raw = true ->
  get_gold_info (good ++ raw :: rest)%list
  = Raise (if not_int py_int (fields raw !! 3) || not_int py_int (fields raw !! 4)
           then ValueError else IndexError).
Proof.
  intros Hgood Hraw. unfold get_gold_info. rewrite for_each_app.
  destruct (gold_lines_read good Hgood ∅) as (g & -> & _). simpl.
  rewrite (gold_line_raise_kind g raw Hraw). reflexivity.
Qed.

(** ** When the matching pass returns *)

Lemma read_prediction_fields (raw : string) :
  read_prediction raw = parse_fields (fields raw).
Proof. reflexivity. Qed.

(** In a document with parallel lists, every position of [starts] holds a
    whole gold item. *)
Lemma aligned_at (d : doc_gold) (i : nat) (s : Z) :
  aligned d -> starts d !! i = Some s ->
  exists e c se,
    getitem (ends d) i = Ok e /\ getitem (cats d) i = Ok c /\
    gold_at d i = Ok (s, e, c, se).
Proof.
  intros Hal Hs. destruct (lookup_lt_is_Some_2 (ends d) i) as [e He].
  { destruct Hal as (<- & _). eapply lookup_lt_Some, Hs. }
  destruct (gold_at_aligned d i s e Hal Hs He) as (c & se & Hc & Hg).
  exists e, c, se. unfold getitem at 1. rewrite He. auto.
Qed.

Lemma record_partial_total (d : doc_gold) (i : nat) (s : Z)
    (category : string) (line : list string) (t : tally) :
  aligned d -> starts d !! i = Some s ->
  exists t', record_partial d i category line t = Ok t'.
Proof.
  intros Hal Hs. destruct (aligned_at d i s Hal Hs) as (e & c & se & _ & Hc & Hg).
  eexists. apply record_partial_ok. eauto.
Qed.

Lemma scan_ends_total (d : doc_gold) (i : nat) (s : Z) (s_pos end_ : Z)
    (category : string) (line : list string) (es : list Z) (t : tally) :
  aligned d -> starts d !! i = Some s ->
  exists r, scan_ends d i s_pos end_ category line es t = Ok r.
Proof.
  intros Hal Hs. induction es as [|e_pos es IH]; simpl; [eauto|].
  destruct ((s_pos <=? end_)%Z && (end_ <=? e_pos)%Z); [|exact IH].
  destruct (record_partial_total d i s category line t Hal Hs) as [t' ->].
  simpl. eauto.
Qed.

Lemma scan_after_total (d : doc_gold) (start end_ s_pos : Z)
    (category : string) (line : list string) (t : tally) :
  aligned d -> s_pos ∈ starts d ->
  exists f, scan_after d start end_ category line s_pos t = Ok f.
Proof.
  intros Hal (i & Hi)%index_elem_of. unfold scan_after.
  destruct (s_pos <? start)%Z; [|eauto]. rewrite Hi. simpl.
  pose proof (index_lookup _ _ _ Hi) as Hs.
  destruct (aligned_at d i s_pos Hal Hs) as (e & c & se & -> & _). simpl.
  destruct ((start <? e)%Z && (e <=? end_)%Z); [|eauto].
  destruct (record_partial_total d i s_pos category line t Hal Hs) as [t' ->].
  simpl. eauto.
Qed.

Lemma scan_body_total (d : doc_gold) (start end_ s_pos : Z)
    (category : string) (line : list string) (t : tally) :
  aligned d -> s_pos ∈ starts d ->
  exists f, scan_body d start end_ category line s_pos t = Ok f.
Proof.
  intros Hal Hin. unfold scan_body.
  destruct (start <=? s_pos)%Z; [|by apply scan_after_total].
  destruct (index_elem_of _ _ Hin) as (i & Hi). rewrite Hi. simpl.
  pose proof (index_lookup _ _ _ Hi) as Hs.
  destruct (aligned_at d i s_pos Hal Hs) as (e & c & se & -> & _). simpl.
  destruct (e =? end_)%Z.
  - destruct (record_partial_total d i s_pos category line t Hal Hs) as [t' ->].
    simpl. eauto.
  - destruct (scan_ends_total d i s_pos s_pos end_ category line
                (drop i (ends d)) t Hal Hs) as [[m t'] ->]. simpl.
    destruct m; [eauto|]. by apply scan_after_total.
Qed.

Lemma for_break_total {A} (body : A -> tally -> result flow) (l : list A) :
  (forall x t, x ∈ l -> exists f, body x t = Ok f) ->
  forall t, exists t', for_break body l t = Ok t'.
Proof.
  induction l as [|x l IH]; intros Hbody t; simpl; [eauto|].
  destruct (Hbody x t) as [f ->]; [apply list_elem_of_here|]. simpl.
  destruct f as [t1|t1]; [|eauto].
  apply IH. intros y t2 Hy. apply Hbody, list_elem_of_further, Hy.
Qed.

Lemma match_line_total (d : doc_gold) (start end_ : Z) (category : string)
    (line : list string) (t : tally) :
  aligned d -> exists t', match_line d start end_ category line t = Ok t'.
Proof.
  intros Hal.
  assert (Hscan : exists t', scan d start end_ category line t = Ok t').
  { apply for_break_total. intros s_pos t1 Hin. by apply scan_body_total. }
  unfold match_line. destruct (contains start (starts d)) eqn:Hc; [|exact Hscan].
  apply contains_elem_of, index_elem_of in Hc as (i & Hi). rewrite Hi. simpl.
  pose proof (index_lookup _ _ _ Hi) as Hs.
  destruct (aligned_at d i start Hal Hs) as (e & c & se & -> & Hcat & Hg).
  simpl. destruct (e =? end_)%Z; [|exact Hscan].
  eexists. apply record_full_ok. eauto.
Qed.

Lemma pred_lines_return (gold : gmap string doc_gold) (pred_file : list string) :
  entries_aligned gold ->
  forall t,
    (exists t', for_each (pred_line gold) t pred_file = Ok t') <->
    Forall (readable gold) pred_file.
Proof.
  intros Hgold. induction pred_file as [|raw rest IH]; intros t; simpl.
  - split; [constructor|eauto].
  - split.
    + intros (t' & (t1 & Hline & Hrest)%bind_ok). constructor.
      * apply pred_line_ok in Hline as (p & d & Hp & Hd & _).
        exists p. rewrite Hd. eauto.
      * apply (IH t1). eauto.
    + intros Hall. apply Forall_cons in Hall as [(p & Hp & d & Hd) Hrest].
      destruct (match_line_total d (p_start p) (p_end p) (p_category p)
                  (fields raw) (count_line t)) as [t1 Ht1].
      { apply (Hgold _ _ Hd). }
      assert (Hline : pred_line gold t raw = Ok t1).
      { apply pred_line_ok. eauto 6. }
      rewrite Hline. simpl. apply IH, Hrest.
Qed.

(** X3.  With the gold dict that [get_gold_info] returns, the matcher
    itself never raises: [compute_match] returns exactly when every line of
    the prediction file reads as a prediction and is about a document of
    the gold dict. *)
Theorem compute_match_returns_iff_lines_readable (gold_file pred_file : list string)
    (gold : gmap string doc_gold) (n : nat) :
  get_gold_info gold_file = Ok (gold, n) ->
  (exists t, compute_match pred_file gold = Ok t) <->
  Forall (fun raw => exists p, read_prediction raw = Ok p /\
                               is_Some (gold !! p_doc p)) pred_file.
Proof.
  intros [Hrun _]%get_gold_info_ok.
  apply (pred_lines_return gold pred_file (gold_lines_aligned _ _ Hrun)).
Qed.

(** ** The counters of a run *)

Lemma pred_line_step (gold : gmap string doc_gold) (t t' : tally)
    (raw : string) :
  pred_line gold t raw = Ok t' -> line_step t t'.
Proof.
  intros (p & d & _ & _ & Hm)%pred_line_ok.
  apply match_line_cases in Hm as [(i & _ & _ & Hfull)|Hscan].
  - apply record_full_ok in Hfull as (g & c & _ & _ & ->).
    unfold line_step. simpl. destruct (c =? p_category p)%string; lia.
  - revert Hscan.
    apply (scan_invariant (line_step t) (p_category p) (fields raw)).
    + unfold line_step. intros g c u Hu. simpl.
      destruct (c =? p_category p)%string; lia.
    + unfold line_step. simpl. lia.
Qed.

Lemma pred_lines_total (gold : gmap string doc_gold) (pred_file : list string) :
  forall t t',
    for_each (pred_line gold) t pred_file = Ok t' ->
    total t' = total t + length pred_file.
Proof.
  induction pred_file as [|raw rest IH]; intros t t'; simpl.
  - intros [= <-]. lia.
  - intros (t1 & Hline & Hrest)%bind_ok.
    apply pred_line_step in Hline as (Htotal & _).
    rewrite (IH _ _ Hrest), Htotal. lia.
Qed.

(** X4.  When [compute_match] returns, [total] is the number of lines of
    the prediction file. *)
Theorem compute_match_total_is_line_count (pred_file : list string)
    (gold : gmap string doc_gold) (t : tally) :
  compute_match pred_file gold = Ok t -> total t = length pred_file.
Proof. intros Hrun. apply pred_lines_total in Hrun. exact Hrun. Qed.

Lemma counters_ordered (pred_file : list string)
    (gold : gmap string doc_gold) (t : tally) :
  compute_match pred_file gold = Ok t ->
  full_cat_match t <= full_match t /\
  full_match t <= total t /\
  full_cat_match t + partial_cat_match t <= full_match t + partial_match t.
Proof.
  unfold compute_match.
  apply (for_each_invariant
           (fun t => full_cat_match t <= full_match t /\
                     full_match t <= total t /\
                     full_cat_match t + partial_cat_match t
                     <= full_match t + partial_match t)
           (pred_line gold)).
  - intros t1 raw t2 Hinv Hline. apply pred_line_step in Hline.
    unfold line_step in Hline. lia.
  - simpl. lia.
Qed.

(** X5.  When [compute_match] returns, the counters are ordered:
    [full_cat_match <= full_match <= total], and the two category counters
    together do not exceed the two match counters together. *)
Theorem compute_match_counters_ordered (pred_file : list string)
    (gold : gmap string doc_gold) (t : tally) :
  compute_match pred_file gold = Ok t ->
  full_cat_match t <= full_match t /\
  full_match t <= total t /\
  full_cat_match t + partial_cat_match t <= full_match t + partial_match t.
Proof. apply counters_ordered. Qed.

(** ** What the recorded pairs are *)

Lemma gold_at_parts (d : doc_gold) (i : nat) (g : gold_item) :
  gold_at d i = Ok g ->
  getitem (starts d) i = Ok g.1.1.1 /\ getitem (ends d) i = Ok g.1.1.2 /\
  getitem (cats d) i = Ok g.1.2 /\ getitem (sents d) i = Ok g.2.
Proof.
  unfold gold_at.
  destruct (getitem (starts d) i) as [s|]; simpl; [|discriminate].
  destruct (getitem (ends d) i) as [e|]; simpl; [|discriminate].
  destruct (getitem (cats d) i) as [c|]; simpl; [|discriminate].
  destruct (getitem (sents d) i) as [se|]; simpl; [|discriminate].
  intros [= <-]. auto.
Qed.

Lemma getitem_lookup {A} (l : list A) (i : nat) (x : A) :
  getitem l i = Ok x <-> l !! i = Some x.
Proof.
  unfold getitem. destruct (l !! i); split; congruence.
Qed.

Lemma for_each_invariant_elem {A S} (P : S -> Prop)
    (body : S -> A -> result S) (l : list A) :
  (forall s x s', x ∈ l -> P s -> body s x = Ok s' -> P s') ->
  forall s s', P s -> for_each body s l = Ok s' -> P s'.
Proof.
  induction l as [|x l IH]; intros Hbody s s' Hs; simpl.
  - intros [= <-]. exact Hs.
  - intros (s1 & Hx & Hrest)%bind_ok. revert Hrest. apply IH.
    + intros s2 y s3 Hy. apply Hbody, list_elem_of_further, Hy.
    + eapply Hbody; [apply list_elem_of_here|exact Hs|exact Hx].
Qed.

Section ScanHits.

(** A property of the tally that is kept when the scan records a gold item
    it can record for this prediction. *)
Variable P : tally -> Prop.
Variables (d : doc_gold) (start end_ : Z).
Variables (category : string) (line : list string).
Hypothesis P_hit :
  forall g c t, partial_hit d start end_ g -> P t ->
                P (with_partial g c category line t).

Lemma record_partial_hit (i : nat) (s e : Z) (t t' : tally) :
  index s (starts d) = Ok i -> getitem (ends d) i = Ok e ->
  ((start <= s)%Z /\ (e = end_ \/ (e <> end_ /\ (s <= end_)%Z)) \/
   (s < start)%Z /\ (start < e <= end_)%Z) ->
  P t -> record_partial d i category line t = Ok t' -> P t'.
Proof.
  intros Hi He Hcond Ht (g & c & Hg & _ & ->)%record_partial_ok.
  apply P_hit; [|exact Ht]. exists i.
  destruct (gold_at_parts d i g Hg) as (Hs' & He' & _).
  pose proof (index_lookup _ _ _ Hi) as Hs. apply getitem_lookup in Hs.
  assert (g.1.1.1 = s) as -> by congruence.
  assert (g.1.1.2 = e) as -> by congruence.
  auto.
Qed.

Lemma scan_ends_hit (i : nat) (s_pos e_i : Z) (es : list Z) (t t' : tally)
    (m : bool) :
  index s_pos (starts d) = Ok i -> getitem (ends d) i = Ok e_i ->
  (start <= s_pos)%Z -> e_i <> end_ ->
  P t -> scan_ends d i s_pos end_ category line es t = Ok (m, t') -> P t'.
Proof.
  intros Hi He Hle Hne Ht. induction es as [|e_pos es IH]; simpl.
  - intros [= _ <-]. exact Ht.
  - destruct (Z.leb_spec s_pos end_) as [Hs|_]; simpl; [|exact IH].
    destruct (end_ <=? e_pos)%Z; [|exact IH].
    intros (t1 & Hrec & [= _ <-])%bind_ok.
    eapply record_partial_hit; eauto.
Qed.

Lemma scan_after_hit (s_pos : Z) (t : tally) (f : flow) :
  P t -> scan_after d start end_ category line s_pos t = Ok f ->
  P (flow_tally f).
Proof.
  intros Ht. unfold scan_after.
  destruct (Z.ltb_spec s_pos start) as [Hlt|_]; [|intros [= <-]; exact Ht].
  destruct (index s_pos (starts d)) as [i|] eqn:Hi; simpl; [|discriminate].
  destruct (getitem (ends d) i) as [e_i|] eqn:He; simpl; [|discriminate].
  destruct (Z.ltb_spec start e_i) as [H1|_]; simpl; [|intros [= <-]; exact Ht].
  destruct (Z.leb_spec e_i end_) as [H2|_]; [|intros [= <-]; exact Ht].
  intros (t1 & Hrec & [= <-])%bind_ok. simpl.
  eapply record_partial_hit; eauto.
Qed.

Lemma scan_body_hit (s_pos : Z) (t : tally) (f : flow) :
  P t -> scan_body d start end_ category line s_pos t = Ok f ->
  P (flow_tally f).
Proof.
  intros Ht. unfold scan_body.
  destruct (Z.leb_spec start s_pos) as [Hle|_]; [|apply scan_after_hit, Ht].
  destruct (index s_pos (starts d)) as [i|] eqn:Hi; simpl; [|discriminate].
  destruct (getitem (ends d) i) as [e_i|] eqn:He; simpl; [|discriminate].
  destruct (Z.eqb_spec e_i end_) as [->|Hne].
  - intros (t1 & Hrec & [= <-])%bind_ok. simpl.
    eapply record_partial_hit; eauto.
  - intros ([m t1] & Hends & Hrest)%bind_ok.
    eapply scan_ends_hit in Hends; eauto.
    destruct m; [injection Hrest as <-; exact Hends|].
    revert Hrest. apply scan_after_hit, Hends.
Qed.

Lemma scan_hit (t t' : tally) :
  P t -> scan d start end_ category line t = Ok t' -> P t'.
Proof.
  apply for_break_invariant. intros s_pos t1 f. apply scan_body_hit.
Qed.

End ScanHits.

(** When the exact-start probe does not record a full match, the first
    gold span that starts where the prediction starts does not end where
    it ends. *)
Lemma match_line_probe (d : doc_gold) (start end_ : Z) (category : string)
    (line : list string) (t t' : tally) :
  match_line d start end_ category line t = Ok t' ->
  (exists i, index start (starts d) = Ok i /\ getitem (ends d) i = Ok end_ /\
             record_full d i category line t = Ok t') \/
  (scan d start end_ category line t = Ok t' /\
   forall i, index start (starts d) = Ok i -> getitem (ends d) i <> Ok end_).
Proof.
  unfold match_line. destruct (contains start (starts d)) eqn:Hc.
  - destruct (index start (starts d)) as [i|e] eqn:Hi; simpl; [|discriminate].
    destruct (getitem (ends d) i) as [e_i|e] eqn:He; simpl; [|discriminate].
    destruct (Z.eqb_spec e_i end_) as [->|Hne].
    + intros Hrec. left. exists i. auto.
    + intros Hscan. right. split; [exact Hscan|].
      intros j [= <-]. congruence.
  - intros Hscan. right. split; [exact Hscan|].
    intros i Hi%index_contains. congruence.
Qed.

Lemma partial_hit_sound (gold : gmap string doc_gold) (p : prediction)
    (d : doc_gold) (line : list string) (g : gold_item) :
  parse_fields line = Ok p -> gold !! p_doc p = Some d ->
  (forall i, index (p_start p) (starts d) = Ok i ->
             getitem (ends d) i <> Ok (p_end p)) ->
  partial_hit d (p_start p) (p_end p) g ->
  partial_pair_sound gold (g, line).
Proof.
  intros Hp Hd Hprobe (i & Hi & Hg & Hcond). exists p, d, i. simpl.
  split; [exact Hp|]. split; [exact Hd|]. split; [exact Hg|]. split.
  - intros [= Hs He]. rewrite Hs in Hi. apply (Hprobe i Hi).
    rewrite <- He. apply (gold_at_parts d i g Hg).
  - intros Hrange. unfold overlaps. apply Z.leb_le. lia.
Qed.

(** Both lists of pairs hold sound pairs of lines of the prediction file. *)
Lemma compute_match_pairs_sound (pred_file : list string)
    (gold : gmap string doc_gold) (t : tally) :
  compute_match pred_file gold = Ok t -> pairs_sound gold pred_file t.
Proof.
  unfold compute_match.
  apply (for_each_invariant_elem (pairs_sound gold pred_file) (pred_line gold));
    [|split; constructor].
  intros t1 raw t2 Hin [Hfull Hpart] (p & d & Hp & Hd & Hm)%pred_line_ok.
  rewrite read_prediction_fields in Hp.
  apply match_line_probe in Hm as [(i & Hi & He & Hrec)|[Hscan Hprobe]].
  - apply record_full_ok in Hrec as (g & c & Hg & _ & ->).
    split; [|exact Hpart]. simpl. apply Forall_app. split; [exact Hfull|].
    constructor; [|constructor]. split; [|eauto].
    exists p, d, i. simpl.
    destruct (gold_at_parts d i g Hg) as (Hs' & He' & _).
    apply index_lookup, getitem_lookup in Hi.
    repeat split; try assumption; congruence.
  - revert Hscan.
    apply (scan_hit (pairs_sound gold pred_file) d (p_start p) (p_end p)
             (p_category p) (fields raw)); [|split; assumption].
    intros g c u Hhit [Hfull' Hpart']. split; [exact Hfull'|]. simpl.
    apply Forall_app. split; [exact Hpart'|].
    constructor; [|constructor]. split; [|eauto].
    eapply partial_hit_sound; eassumption.
Qed.

(** X6.  Every pair of [fully_matched_pairs] is an exact match: its line is
    a line of the prediction file, and its gold item is an entry of the
    document of that prediction with the start and the end of the
    prediction. *)
Theorem fully_matched_pairs_are_exact (pred_file : list string)
    (gold : gmap string doc_gold) (t : tally) (pair : matched_pair) :
  compute_match pred_file gold = Ok t ->
  pair ∈ fully_matched_pairs t ->
  (exists raw, raw ∈ pred_file /\ pair.2 = fields raw) /\
  exists p d i,
    parse_fields pair.2 = Ok p /\ gold !! p_doc p = Some d /\
    gold_at d i = Ok pair.1 /\
    pair.1.1.1.1 = p_start p /\ pair.1.1.1.2 = p_end p.
Proof.
  intros [Hfull _]%compute_match_pairs_sound Hin.
  rewrite Forall_forall in Hfull. destruct (Hfull pair Hin) as [Hsound Hraw].
  split; [exact Hraw|exact Hsound].
Qed.

(** X7.  Every pair of [partially_matched_pairs] is a line of the prediction
    file with an entry of the document of that prediction; the offsets of
    the gold item are never those of the prediction, and a gold item with
    [start <= end] has an offset in common with the prediction. *)
Theorem partially_matched_pairs_overlap (pred_file : list string)
    (gold : gmap string doc_gold) (t : tally) (pair : matched_pair) :
  compute_match pred_file gold = Ok t ->
  pair ∈ partially_matched_pairs t ->
  (exists raw, raw ∈ pred_file /\ pair.2 = fields raw) /\
  exists p d i,
    parse_fields pair.2 = Ok p /\ gold !! p_doc p = Some d /\
    gold_at d i = Ok pair.1 /\
    (pair.1.1.1.1, pair.1.1.1.2) <> (p_start p, p_end p) /\
    ((pair.1.1.1.1 <= pair.1.1.1.2)%Z ->
     overlaps (p_start p) (p_end p) pair.1.1.1.1 pair.1.1.1.2 = true).
Proof.
  intros [_ Hpart]%compute_match_pairs_sound Hin.
  rewrite Forall_forall in Hpart. destruct (Hpart pair Hin) as [Hsound Hraw].
  split; [exact Hraw|exact Hsound].
Qed.

(** ** Runs over a file in two parts *)

Lemma tally_add_0_r (t : tally) : tally_add t tally0 = t.
Proof.
  destruct t. unfold tally_add. simpl. rewrite !Nat.add_0_r, !app_nil_r.
  reflexivity.
Qed.

Lemma with_partial_add (g : gold_item) (c category : string)
    (line : list string) (t u : tally) :
  with_partial g c category line (tally_add t u)
  = tally_add t (with_partial g c category line u).
Proof.
  unfold with_partial, tally_add. simpl. rewrite <- !app_assoc.
  destruct (c =? category)%string; f_equal; lia.
Qed.

Lemma with_full_add (g : gold_item) (c category : string)
    (line : list string) (t u : tally) :
  with_full g c category line (tally_add t u)
  = tally_add t (with_full g c category line u).
Proof.
  unfold with_full, tally_add. simpl. rewrite <- !app_assoc.
  destruct (c =? category)%string; f_equal; lia.
Qed.

Lemma count_line_add (t u : tally) :
  count_line (tally_add t u) = tally_add t (count_line u).
Proof. unfold count_line, tally_add. simpl. f_equal. lia. Qed.

Lemma record_partial_add (d : doc_gold) (i : nat) (category : string)
    (line : list string) (t u : tally) :
  record_partial d i category line (tally_add t u)
  = result_map (tally_add t) (record_partial d i category line u).
Proof.
  destruct (record_partial d i category line u) as [u'|e] eqn:Hu; simpl.
  - apply record_partial_ok in Hu as (g & c & Hg & Hc & ->).
    rewrite <- with_partial_add. apply record_partial_ok. eauto.
  - unfold record_partial in *.
    destruct (gold_at d i); simpl in *; [|exact Hu].
    destruct (getitem (cats d) i); simpl in *; [discriminate|exact Hu].
Qed.

Lemma record_full_add (d : doc_gold) (i : nat) (category : string)
    (line : list string) (t u : tally) :
  record_full d i category line (tally_add t u)
  = result_map (tally_add t) (record_full d i category line u).
Proof.
  destruct (record_full d i category line u) as [u'|e] eqn:Hu; simpl.
  - apply record_full_ok in Hu as (g & c & Hg & Hc & ->).
    rewrite <- with_full_add. apply record_full_ok. eauto.
  - unfold record_full in *.
    destruct (getitem (cats d) i); simpl in *; [|exact Hu].
    destruct (gold_at d i); simpl in *; [discriminate|exact Hu].
Qed.

Lemma scan_ends_add (d : doc_gold) (i : nat) (s_pos end_ : Z)
    (category : string) (line : list string) (es : list Z) (t u : tally) :
  scan_ends d i s_pos end_ category line es (tally_add t u)
  = result_map (fun r => (r.1, tally_add t r.2))
      (scan_ends d i s_pos end_ category line es u).
Proof.
  induction es as [|e_pos es IH]; simpl; [reflexivity|].
  destruct ((s_pos <=? end_)%Z && (end_ <=? e_pos)%Z); [|exact IH].
  rewrite record_partial_add.
  destruct (record_partial d i category line u); reflexivity.
Qed.

Lemma scan_after_add (d : doc_gold) (start end_ : Z) (category : string)
    (line : list string) (s_pos : Z) (t u : tally) :
  scan_after d start end_ category line s_pos (tally_add t u)
  = result_map (flow_add t) (scan_after d start end_ category line s_pos u).
Proof.
  unfold scan_after. destruct (s_pos <? start)%Z; [|reflexivity].
  destruct (index s_pos (starts d)) as [i|]; simpl; [|reflexivity].
  destruct (getitem (ends d) i) as [e_i|]; simpl; [|reflexivity].
  destruct ((start <? e_i)%Z && (e_i <=? end_)%Z); [|reflexivity].
  rewrite record_partial_add.
  destruct (record_partial d i category line u); reflexivity.
Qed.

Lemma scan_body_add (d : doc_gold) (start end_ : Z) (category : string)
    (line : list string) (s_pos : Z) (t u : tally) :
  scan_body d start end_ category line s_pos (tally_add t u)
  = result_map (flow_add t) (scan_body d start end_ category line s_pos u).
Proof.
  unfold scan_body. destruct (start <=? s_pos)%Z; [|apply scan_after_add].
  destruct (index s_pos (starts d)) as [i|]; simpl; [|reflexivity].
  destruct (getitem (ends d) i) as [e_i|]; simpl; [|reflexivity].
  destruct (e_i =? end_)%Z.
  - rewrite record_partial_add.
    destruct (record_partial d i category line u); reflexivity.
  - rewrite scan_ends_add.
    destruct (scan_ends d i s_pos end_ category line (drop i (ends d)) u)
      as [[m u']|]; simpl; [|reflexivity].
    destruct m; [reflexivity|apply scan_after_add].
Qed.

Lemma for_break_add {A} (body : A -> tally -> result flow) (l : list A)
    (t : tally) :
  (forall x u, body x (tally_add t u) = result_map (flow_add t) (body x u)) ->
  forall u, for_break body l (tally_add t u)
            = result_map (tally_add t) (for_break body l u).
Proof.
  intros Hbody. induction l as [|x l IH]; intros u; simpl; [reflexivity|].
  rewrite Hbody. destruct (body x u) as [[u'|u']|]; simpl; auto.
Qed.

Lemma match_line_add (d : doc_gold) (start end_ : Z) (category : string)
    (line : list string) (t u : tally) :
  match_line d start end_ category line (tally_add t u)
  = result_map (tally_add t) (match_line d start end_ category line u).
Proof.
  assert (Hscan : scan d start end_ category line (tally_add t u)
                  = result_map (tally_add t) (scan d start end_ category line u)).
  { apply for_break_add. intros s_pos u'. apply scan_body_add. }
  unfold match_line. destruct (contains start (starts d)); [|exact Hscan].
  destruct (index start (starts d)) as [i|]; simpl; [|reflexivity].
  destruct (getitem (ends d) i) as [e_i|]; simpl; [|reflexivity].
  destruct (e_i =? end_)%Z; [apply record_full_add|exact Hscan].
Qed.

Lemma pred_line_add (gold : gmap string doc_gold) (raw : string) (t u : tally) :
  pred_line gold (tally_add t u) raw
  = result_map (tally_add t) (pred_line gold u raw).
Proof.
  rewrite !pred_line_read.
  destruct (read_prediction raw) as [p|]; simpl; [|reflexivity].
  destruct (lookup_doc gold (p_doc p)) as [d|]; simpl; [|reflexivity].
  rewrite count_line_add. apply match_line_add.
Qed.

Lemma pred_lines_add (gold : gmap string doc_gold) (pred_file : list string)
    (t : tally) :
  forall u, for_each (pred_line gold) (tally_add t u) pred_file
            = result_map (tally_add t) (for_each (pred_line gold) u pred_file).
Proof.
  induction pred_file as [|raw rest IH]; intros u; simpl; [reflexivity|].
  rewrite pred_line_add. destruct (pred_line gold u raw); simpl; auto.
Qed.

(** X8.  Matching is additive over the prediction file: running
    [compute_match] on two files one after the other gives the sum of the
    two tallies (counters added, pair lists appended), and raises what the
    first of the two runs to fail raises. *)
Theorem compute_match_app (file1 file2 : list string)
    (gold : gmap string doc_gold) :
  compute_match (file1 ++ file2)%list gold
  = (t1 ← compute_match file1 gold;
     t2 ← compute_match file2 gold;
     Ok (tally_add t1 t2)).
Proof.
  unfold compute_match. rewrite for_each_app.
  destruct (for_each (pred_line gold) tally0 file1) as [t1|]; simpl;
    [|reflexivity].
  rewrite <- (tally_add_0_r t1) at 1. rewrite pred_lines_add.
  destruct (for_each (pred_line gold) tally0 file2); reflexivity.
Qed.

(** ** The sentiment count *)

Lemma sentiment_step_ok (n : nat) (pair : matched_pair) :
  pair.2 <> [] ->
  sentiment_step n pair = Ok (if agrees pair then S n else n).
Proof.
  intros Hline. unfold sentiment_step, unpack_last, agrees.
  destruct (last pair.2) as [pred_s|] eqn:Hlast; [reflexivity|].
  apply last_None in Hlast. contradiction.
Qed.

Lemma sentiment_count (matches : list matched_pair) :
  Forall (fun pair => pair.2 <> []) matches ->
  forall n, for_each sentiment_step n matches
            = Ok (n + length (filter (fun pair => agrees pair = true) matches)).
Proof.
  induction 1 as [|pair rest Hpair _ IH]; intros n; simpl.
  - by rewrite Nat.add_0_r.
  - rewrite (sentiment_step_ok n pair Hpair). simpl. rewrite IH.
    destruct (agrees pair) eqn:Ha.
    + rewrite filter_cons_True by exact Ha. simpl. f_equal. lia.
    + rewrite filter_cons_False by congruence. reflexivity.
Qed.

Lemma sentiment_empty_line (matches : list matched_pair) :
  Exists (fun pair => pair.2 = []) matches ->
  forall n, for_each sentiment_step n matches = Raise ValueError.
Proof.
  induction 1 as [pair rest Hpair|pair rest _ IH]; intros n; simpl.
  - unfold sentiment_step, unpack_last. rewrite Hpair. reflexivity.
  - destruct (sentiment_step n pair) as [n'|e] eqn:Hstep; simpl; [apply IH|].
    unfold sentiment_step, unpack_last in Hstep.
    destruct (last pair.2); simpl in Hstep; congruence.
Qed.

Lemma empty_line_dec (matches : list matched_pair) :
  Forall (fun pair => pair.2 <> []) matches \/
  Exists (fun pair => pair.2 = []) matches.
Proof.
  induction matches as [|pair rest [IH|IH]].
  - left. constructor.
  - destruct (pair.2) as [|f fs] eqn:Hline.
    + right. by constructor 1.
    + left. constructor; [congruence|exact IH].
  - right. by constructor 2.
Qed.

(** X9.  [compute_sentiment_accuracy] counts the pairs whose gold sentiment
    is the last field of the predicted line, whichever field that is; it
    raises [ValueError] exactly when some pair has a line with no field. *)
Theorem compute_sentiment_accuracy_counts_last_field
    (matches : list matched_pair) :
  (Forall (fun pair => pair.2 <> []) matches ->
   compute_sentiment_accuracy matches
   = Ok (length (filter (fun pair => agrees pair = true) matches))) /\
  (Exists (fun pair => pair.2 = []) matches ->
   compute_sentiment_accuracy matches = Raise ValueError) /\
  (raises (compute_sentiment_accuracy matches) ->
   Exists (fun pair => pair.2 = []) matches).
Proof.
  unfold compute_sentiment_accuracy. split; [|split].
  - intros Hall. apply (sentiment_count matches Hall 0).
  - intros Hex. apply sentiment_empty_line, Hex.
  - intros [e He]. destruct (empty_line_dec matches) as [Hall|Hex]; [|exact Hex].
    rewrite (sentiment_count matches Hall 0) in He. discriminate.
Qed.

(** ** The report of the aspect mode *)

Lemma compute_match_counts_agree (pred_file : list string)
    (gold : gmap string doc_gold) (t : tally) :
  compute_match pred_file gold = Ok t -> counts_agree t.
Proof.
  unfold compute_match.
  apply (for_each_invariant counts_agree (pred_line gold)).
  - intros t1 raw t2. apply pred_line_counts_agree.
  - split; reflexivity.
Qed.

Lemma parse_fields_nonempty (line : list string) (p : prediction) :
  parse_fields line = Ok p -> line <> [].
Proof. intros Hp ->. discriminate. Qed.

Lemma pairs_sound_lines (gold : gmap string doc_gold) (pred_file : list string)
    (t : tally) :
  pairs_sound gold pred_file t ->
  Forall (fun pair => pair.2 <> []) (fully_matched_pairs t) /\
  Forall (fun pair => pair.2 <> []) (partially_matched_pairs t).
Proof.
  intros [Hfull Hpart]. split.
  - eapply Forall_impl; [exact Hfull|].
    intros pair [(p & _ & _ & Hp & _) _]. eapply parse_fields_nonempty, Hp.
  - eapply Forall_impl; [exact Hpart|].
    intros pair [(p & _ & _ & Hp & _) _]. eapply parse_fields_nonempty, Hp.
Qed.

Lemma gold_size_lookup (gold : gmap string doc_gold) (key : string)
    (d : doc_gold) :
  gold !! key = Some d -> length (cats d) <= gold_size gold.
Proof.
  intros Hd. unfold gold_size.
  rewrite (map_fold_delete_L _ _ key d gold); [lia|intros; lia|exact Hd].
Qed.

(** A full match needs a gold entry, so the gold size is not zero. *)
Lemma full_match_gold_size (gold_file pred_file : list string)
    (gold : gmap string doc_gold) (n : nat) (t : tally) :
  get_gold_info gold_file = Ok (gold, n) ->
  compute_match pred_file gold = Ok t ->
  0 < full_match t -> 0 < n.
Proof.
  intros [_ ->]%get_gold_info_ok Hrun Hfull.
  destruct (compute_match_counts_agree _ _ _ Hrun) as [Hlen _].
  destruct (compute_match_pairs_sound _ _ _ Hrun) as [Hsound _].
  destruct (fully_matched_pairs t) as [|pair rest]; [simpl in Hlen; lia|].
  apply Forall_cons in Hsound as [[(p & d & i & _ & Hd & Hg & _) _] _].
  apply gold_at_parts in Hg as (_ & _ & Hc & _).
  apply getitem_lookup, lookup_lt_Some in Hc.
  pose proof (gold_size_lookup gold _ d Hd). lia.
Qed.

Lemma true_div_ratio (a b : nat) :
  true_div a b = if (0 <? b) then Ok (ratio a b) else Raise ZeroDivisionError.
Proof. destruct b; reflexivity. Qed.

Lemma main_acatsent_cases (gold_file pred_file : list string)
    (gold : gmap string doc_gold) (n : nat) (t : tally) :
  get_gold_info gold_file = Ok (gold, n) ->
  compute_match pred_file gold = Ok t ->
  main_acatsent gold_file pred_file
  = if (0 <? full_match t) && (0 <? partial_match t)
    then Ok (report_of t n) else Raise ZeroDivisionError.
Proof.
  intros Hgold Hrun. unfold main_acatsent. rewrite Hgold. simpl.
  rewrite Hrun. simpl.
  destruct (pairs_sound_lines _ _ _ (compute_match_pairs_sound _ _ _ Hrun))
    as [Hfl Hpl].
  unfold compute_sentiment_accuracy.
  rewrite (sentiment_count _ Hfl 0), (sentiment_count _ Hpl 0). simpl.
  destruct (compute_match_counts_agree _ _ _ Hrun) as [Hf Hp].
  destruct (counters_ordered _ _ _ Hrun) as (_ & Hft & _).
  pose proof (full_match_gold_size _ _ _ _ _ Hgold Hrun) as Hn.
  rewrite !true_div_ratio. unfold report_of, agreeing. rewrite <- Hf, <- Hp.
  destruct (Nat.ltb_spec 0 (full_match t)) as [Hfull|Hfull]; simpl.
  - destruct (Nat.ltb_spec 0 (total t)); [|lia]. simpl.
    destruct (Nat.ltb_spec 0 n); [|lia]. simpl.
    destruct (Nat.ltb_spec 0 (partial_match t)); reflexivity.
  - destruct (0 <? total t); simpl; [|reflexivity].
    destruct (0 <? n); reflexivity.
Qed.

(** X10.  After a gold file and a prediction file that are read and matched
    without an exception, the report of the aspect mode is computed only if
    there is at least one full match and at least one partial match; in
    every other case, an empty prediction file included, [main] raises
    [ZeroDivisionError]. *)
Theorem report_needs_a_full_and_a_partial_match (gold_file pred_file : list string)
    (gold : gmap string doc_gold) (n : nat) (t : tally) :
  get_gold_info gold_file = Ok (gold, n) ->
  compute_match pred_file gold = Ok t ->
  (0 < full_match t -> 0 < partial_match t ->
   main_acatsent gold_file pred_file = Ok (report_of t n)) /\
  (full_match t = 0 \/ partial_match t = 0 ->
   main_acatsent gold_file pred_file = Raise ZeroDivisionError).
Proof.
  intros Hgold Hrun. rewrite (main_acatsent_cases _ _ _ _ _ Hgold Hrun). split.
  - intros Hf Hp. destruct (Nat.ltb_spec 0 (full_match t)); [|lia].
    destruct (Nat.ltb_spec 0 (partial_match t)); [reflexivity|lia].
  - intros [H0|H0]; rewrite H0; simpl; [reflexivity|].
    destruct (0 <? full_match t); reflexivity.
Qed.

Lemma ratio_le (a b c : nat) : a <= b -> (ratio a c <= ratio b c)%Q.
Proof.
  intros Hab. unfold ratio, Qle. simpl.
  apply Z.mul_le_mono_nonneg_r; lia.
Qed.

Lemma ratio_le_1 (a b : nat) : 0 < b -> a <= b -> (ratio a b <= 1)%Q.
Proof.
  intros Hb Hab. unfold ratio, Qle. simpl.
  destruct b as [|k]; [lia|]. rewrite <- Pos.of_nat_succ. lia.
Qed.

Lemma main_acatsent_ok (gold_file pred_file : list string) (r : report) :
  main_acatsent gold_file pred_file = Ok r ->
  exists gold n t,
    get_gold_info gold_file = Ok (gold, n) /\
    compute_match pred_file gold = Ok t /\
    0 < full_match t /\ 0 < partial_match t /\ r = report_of t n.
Proof.
  intros Hmain.
  destruct (get_gold_info gold_file) as [[gold n]|] eqn:Hgold;
    [|unfold main_acatsent in Hmain; rewrite Hgold in Hmain; discriminate].
  destruct (compute_match pred_file gold) as [t|] eqn:Hrun;
    [|unfold main_acatsent in Hmain; rewrite Hgold in Hmain; simpl in Hmain;
      rewrite Hrun in Hmain; discriminate].
  rewrite (main_acatsent_cases _ _ _ _ _ Hgold Hrun) in Hmain.
  exists gold, n, t.
  destruct (Nat.ltb_spec 0 (full_match t)); simpl in Hmain; [|discriminate].
  destruct (Nat.ltb_spec 0 (partial_match t)); [|discriminate].
  injection Hmain as <-. auto.
Qed.

(** X11.  In a report that [main] computes, the full-match precision, the
    full category accuracy and the two sentiment accuracies are at most 1,
    and the numbers are ordered as their names say: full category accuracy
    <= precision <= partial-match ratio, and full category accuracy <=
    partial category accuracy <= partial-match ratio. *)
Theorem report_numbers_ordered (gold_file pred_file : list string) (r : report) :
  main_acatsent gold_file pred_file = Ok r ->
  (full_category_accuracy r <= full_precision r)%Q /\
  (full_precision r <= 1)%Q /\
  (full_precision r <= partial_ratio r)%Q /\
  (full_category_accuracy r <= partial_category_accuracy r)%Q /\
  (partial_category_accuracy r <= partial_ratio r)%Q /\
  (full_sentiment_accuracy r <= 1)%Q /\
  (partial_sentiment_accuracy r <= 1)%Q.
Proof.
  intros (gold & n & t & Hgold & Hrun & Hf & Hp & ->)%main_acatsent_ok.
  destruct (counters_ordered _ _ _ Hrun) as (H1 & H2 & H3).
  destruct (compute_match_counts_agree _ _ _ Hrun) as [Hlf Hlp].
  unfold report_of. simpl. repeat split.
  - apply ratio_le, H1.
  - apply ratio_le_1; lia.
  - apply ratio_le. lia.
  - apply ratio_le. lia.
  - apply ratio_le, H3.
  - apply ratio_le_1; [lia|]. apply length_filter.
  - apply ratio_le_1; [lia|]. apply length_filter.
Qed.

(** ** One prediction line at a time *)

Lemma same_full_trans (t1 t2 t3 : tally) :
  same_full t1 t2 -> same_full t2 t3 -> same_full t1 t3.
Proof.
  unfold same_full. intros (H1 & H2 & H3 & H4) (H5 & H6 & H7 & H8).
  repeat split; congruence.
Qed.

Lemma record_partial_once (d : doc_gold) (i : nat) (category : string)
    (line : list string) (t t' : tally) :
  record_partial d i category line t = Ok t' ->
  same_full t t' /\ partial_match t' = S (partial_match t).
Proof.
  intros (g & c & _ & _ & ->)%record_partial_ok. repeat split.
Qed.

Lemma scan_ends_once (d : doc_gold) (i : nat) (s_pos end_ : Z)
    (category : string) (line : list string) (es : list Z) (t t' : tally)
    (m : bool) :
  scan_ends d i s_pos end_ category line es t = Ok (m, t') ->
  same_full t t' /\
  partial_match t' = (if m then S (partial_match t) else partial_match t).
Proof.
  induction es as [|e_pos es IH]; simpl.
  - intros [= <- <-]. repeat split.
  - destruct ((s_pos <=? end_)%Z && (end_ <=? e_pos)%Z); [|exact IH].
    intros (t1 & Hrec & [= <- <-])%bind_ok.
    apply record_partial_once in Hrec. exact Hrec.
Qed.

Lemma scan_after_once (d : doc_gold) (start end_ s_pos : Z)
    (category : string) (line : list string) (t : tally) (f : flow) :
  scan_after d start end_ category line s_pos t = Ok f ->
  same_full t (flow_tally f) /\
  partial_match t <= partial_match (flow_tally f) <= S (partial_match t).
Proof.
  unfold scan_after.
  destruct (s_pos <? start)%Z; [|intros [= <-]; simpl; repeat split; lia].
  destruct (index s_pos (starts d)) as [i|]; simpl; [|discriminate].
  destruct (getitem (ends d) i) as [e_i|]; simpl; [|discriminate].
  destruct ((start <? e_i)%Z && (e_i <=? end_)%Z);
    [|intros [= <-]; simpl; repeat split; lia].
  intros (t1 & Hrec & [= <-])%bind_ok. simpl.
  apply record_partial_once in Hrec as [Hsame ->]. split; [exact Hsame|lia].
Qed.

Lemma scan_body_once (d : doc_gold) (start end_ s_pos : Z)
    (category : string) (line : list string) (t : tally) (f : flow) :
  scan_body d start end_ category line s_pos t = Ok f ->
  same_full t (flow_tally f) /\
  partial_match t <= partial_match (flow_tally f) <= S (partial_match t).
Proof.
  unfold scan_body.
  destruct (start <=? s_pos)%Z; [|apply scan_after_once].
  destruct (index s_pos (starts d)) as [i|]; simpl; [|discriminate].
  destruct (getitem (ends d) i) as [e_i|]; simpl; [|discriminate].
  destruct (e_i =? end_)%Z.
  - intros (t1 & Hrec & [= <-])%bind_ok. simpl.
    apply record_partial_once in Hrec as [Hsame ->]. split; [exact Hsame|lia].
  - intros ([m t1] & Hends & Hrest)%bind_ok.
    apply scan_ends_once in Hends as [Hsame Hpart]. destruct m.
    + injection Hrest as <-. simpl. split; [exact Hsame|lia].
    + apply scan_after_once in Hrest as [Hsame' Hpart'].
      rewrite Hpart in Hpart'. split; [|lia].
      eapply same_full_trans; eassumption.
Qed.

Lemma for_break_partial_bound {A} (body : A -> tally -> result flow)
    (l : list A) :
  (forall x t f, body x t = Ok f ->
     same_full t (flow_tally f) /\
     partial_match t <= partial_match (flow_tally f) <= S (partial_match t)) ->
  forall t t', for_break body l t = Ok t' ->
    same_full t t' /\
    partial_match t <= partial_match t' <= partial_match t + length l.
Proof.
  intros Hbody. induction l as [|x l IH]; intros t t'; simpl.
  - intros [= <-]. repeat split; lia.
  - intros (f & Hf & Hrest)%bind_ok.
    apply Hbody in Hf as [Hsame Hpart]. destruct f as [t1|t1]; simpl in *.
    + apply IH in Hrest as [Hsame' Hpart'].
      split; [eapply same_full_trans; eassumption|lia].
    + injection Hrest as <-. split; [exact Hsame|lia].
Qed.

(** X14.  A prediction line that is processed either adds one full match
    and leaves the partial matches alone, or leaves the full matches alone
    and adds at most as many partial matches as its document has gold
    spans. *)
Theorem pred_line_full_or_partial (gold : gmap string doc_gold)
    (t t' : tally) (raw : string) (p : prediction) (d : doc_gold) :
  pred_line gold t raw = Ok t' ->
  read_prediction raw = Ok p -> gold !! p_doc p = Some d ->
  (full_match t' = S (full_match t) /\
   partial_match t' = partial_match t /\
   partially_matched_pairs t' = partially_matched_pairs t) \/
  (full_match t' = full_match t /\
   fully_matched_pairs t' = fully_matched_pairs t /\
   partial_match t <= partial_match t' <= partial_match t + length (starts d)).
Proof.
  intros (p' & d' & Hp' & Hd' & Hm)%pred_line_ok Hp Hd.
  rewrite Hp in Hp'. injection Hp' as <-. rewrite Hd in Hd'.
  injection Hd' as <-.
  apply match_line_cases in Hm as [(i & _ & _ & Hfull)|Hscan].
  - left. apply record_full_ok in Hfull as (g & c & _ & _ & ->). repeat split.
  - right. apply for_break_partial_bound in Hscan as [(H1 & _ & H2 & _) H3];
      [|intros s_pos u f; apply scan_body_once].
    simpl in *. auto.
Qed.

(** X15.  A prediction line needs five fields, not six: it is read exactly
    when it has at least five tab-separated fields and [int] accepts the
    fourth and the fifth; the sentiment field is never looked at. *)
Theorem read_prediction_needs_five_fields (raw : string) :
  (exists p, read_prediction raw = Ok p) <->
  5 <= length (fields raw) /\
  not_int py_int (fields raw !! 3) = false /\
  not_int py_int (fields raw !! 4) = false.
Proof.
  unfold read_prediction, not_int, int.
  destruct (fields raw) as [|key [|c [|f2 [|f3 [|f4 rest]]]]]; simpl;
    repeat match goal with
           | |- context [py_int ?f] => destruct (py_int f) as [?|]; simpl
           end;
    split; try (intros [? [=]]); try (intros (? & ? & ?));
    try discriminate; try lia; eauto.
Qed.

End Properties.

(** ** The review-level accuracy *)

Lemma true_div_ok (n d : nat) :
  0 < d -> true_div n d = Ok (Z.of_nat n # Pos.of_nat d).
Proof. destruct d; [lia|reflexivity]. Qed.

Lemma true_div_raises (n d : nat) (e : exn) :
  true_div n d = Raise e <-> d = 0 /\ e = ZeroDivisionError.
Proof.
  destruct d; simpl.
  - split; [intros [= <-]; auto|intros [_ ->]; reflexivity].
  - split; [discriminate|intros [[=] _]].
Qed.

(** The size of the set of the lines is the number of distinct lines. *)
Lemma size_label_set (file : list string) :
  size (list_to_set file : gset string) = distinct_lines file.
Proof.
  unfold distinct_lines.
  rewrite <- (size_list_to_set (C := gset string) (remove_dups file))
    by apply NoDup_remove_dups.
  f_equal. apply set_eq. intros l.
  rewrite !elem_of_list_to_set. symmetry. apply elem_of_remove_dups.
Qed.

Lemma common_label_set (gold_file pred_file : list string) :
  (list_to_set gold_file ∩ list_to_set pred_file : gset string)
  = list_to_set (common_lines gold_file pred_file).
Proof.
  apply set_eq. intros l. unfold common_lines.
  rewrite elem_of_intersection, !elem_of_list_to_set, list_elem_of_filter.
  tauto.
Qed.

Lemma label_set_empty (file : list string) :
  size (list_to_set file : gset string) = 0 <-> file = [].
Proof.
  rewrite size_label_set. unfold distinct_lines. split.
  - destruct file as [|l file]; [reflexivity|]. intros Hlen.
    apply nil_length_inv in Hlen.
    assert (Hin : l ∈ remove_dups (l :: file)).
    { apply elem_of_remove_dups, list_elem_of_here. }
    rewrite Hlen in Hin. inversion Hin.
  - intros ->. reflexivity.
Qed.

(** C5.  With at least one gold line, the overall sentiment accuracy is the
    number of distinct lines that the two files share over the number of
    distinct gold lines; repeated lines count once on each side.  The gold
    lines a, a, b against the predicted line a give one half. *)
Theorem overall_accuracy_is_ratio_of_distinct_lines
    (gold_file pred_file : list string) :
  gold_file <> [] ->
  let shared := distinct_lines (common_lines gold_file pred_file) in
  let distinct := distinct_lines gold_file in
  0 < distinct /\
  compute_overall_sentiment_accuracy gold_file pred_file
  = Ok (Z.of_nat shared # Pos.of_nat distinct) /\
  (Z.of_nat shared # Pos.of_nat distinct
   == inject_Z (Z.of_nat shared) / inject_Z (Z.of_nat distinct))%Q /\
  compute_overall_sentiment_accuracy
    [tsv ["a"]; tsv ["a"]; tsv ["b"]] [tsv ["a"]] = Ok (1 # 2)%Q.
Proof.
  intros Hgold shared distinct.
  assert (Hpos : 0 < distinct).
  { subst distinct. rewrite <- size_label_set.
    destruct (size (list_to_set gold_file : gset string)) eqn:Hsz; [|lia].
    apply label_set_empty in Hsz. contradiction. }
  split; [exact Hpos|]. split; [|split].
  - unfold compute_overall_sentiment_accuracy.
    rewrite common_label_set, !size_label_set. apply true_div_ok, Hpos.
  - rewrite Qmake_Qdiv. replace (Z.pos (Pos.of_nat distinct)) with (Z.of_nat distinct);
      [reflexivity|].
    destruct distinct as [|k]; [lia|]. rewrite <- Pos.of_nat_succ. lia.
  - reflexivity.
Qed.

(** C6.  The overall sentiment accuracy raises exactly when the gold file has
    no line, that is when the set of gold lines is empty, and what it raises
    then is [ZeroDivisionError]. *)
Theorem overall_accuracy_raises_iff_no_gold_line
    (gold_file pred_file : list string) :
  (raises (compute_overall_sentiment_accuracy gold_file pred_file)
   <-> gold_file = []) /\
  (gold_file = [] <-> (list_to_set gold_file : gset string) = ∅) /\
  (forall e, compute_overall_sentiment_accuracy gold_file pred_file = Raise e ->
             e = ZeroDivisionError).
Proof.
  unfold compute_overall_sentiment_accuracy, raises. repeat split.
  - intros [e [Hd _]%true_div_raises]. apply label_set_empty, Hd.
  - intros ->. exists ZeroDivisionError. reflexivity.
  - intros ->. reflexivity.
  - intros Hset. apply label_set_empty. rewrite Hset. apply size_empty.
  - intros e [_ ->]%true_div_raises. reflexivity.
Qed.

(** X12.  With at least one gold line, the overall sentiment accuracy is a
    number between 0 and 1; it is 1 exactly when every gold line is also a
    predicted line, whatever else the prediction file holds, and 0 exactly
    when no gold line is. *)
Theorem overall_accuracy_between_0_and_1 (gold_file pred_file : list string) :
  gold_file <> [] ->
  exists q,
    compute_overall_sentiment_accuracy gold_file pred_file = Ok q /\
    (0 <= q)%Q /\ (q <= 1)%Q /\
    ((q == 1)%Q <-> forall l, l ∈ gold_file -> l ∈ pred_file) /\
    ((q == 0)%Q <-> forall l, l ∈ gold_file -> l ∉ pred_file).
Proof.
  intros Hgold. unfold compute_overall_sentiment_accuracy.
  set (G := list_to_set gold_file : gset string).
  set (P := list_to_set pred_file : gset string).
  assert (Hpos : 0 < size G).
  { destruct (size G) eqn:Hsz; [|lia]. apply label_set_empty in Hsz. done. }
  assert (Hle : size (G ∩ P) <= size G).
  { apply subseteq_size, intersection_subseteq_l. }
  rewrite (true_div_ok _ _ Hpos). eexists. split; [reflexivity|].
  assert (Hden : Z.pos (Pos.of_nat (size G)) = Z.of_nat (size G)).
  { destruct (size G) as [|k]; [lia|]. rewrite <- Pos.of_nat_succ. lia. }
  unfold Qle, Qeq. simpl. rewrite Hden. repeat split; try lia.
  - intros Heq l Hl. assert (Hsame : G ∩ P = G).
    { apply set_subseteq_size_eq; [apply intersection_subseteq_l|lia]. }
    assert (Hin : l ∈ G ∩ P).
    { rewrite Hsame. apply elem_of_list_to_set, Hl. }
    apply elem_of_intersection in Hin as [_ Hin].
    apply elem_of_list_to_set in Hin. exact Hin.
  - intros Hall. assert (G ∩ P = G) as ->; [|lia].
    apply set_eq. intros l. subst G P.
    rewrite elem_of_intersection, !elem_of_list_to_set. split; [tauto|auto].
  - intros Heq l Hl Hp. assert (Hnone : G ∩ P ≡ ∅).
    { apply size_empty_inv. lia. }
    apply (not_elem_of_empty (C := gset string) l). rewrite <- Hnone.
    subst G P. rewrite elem_of_intersection, !elem_of_list_to_set. auto.
  - intros Hall. assert (G ∩ P = ∅) as ->; [|rewrite size_empty; lia].
    apply set_eq. intros l. subst G P.
    rewrite elem_of_intersection, !elem_of_list_to_set, elem_of_empty.
    split; [intros [Hl Hp]; exact (Hall l Hl Hp)|tauto].
Qed.

(** * The model on the sample files *)

Lemma sample_gold_read :
  get_gold_info int_decimal sample_gold_file = Ok (sample_gold, 2).
Proof. vm_compute. reflexivity. Qed.

(** The comparisons of the scan are inclusive: a prediction that ends at
    the offset where a gold span starts has that offset in common with it,
    and is recorded as a partial match. *)
Lemma touching_spans_are_partial :
  overlaps 3 5 5 10 = true /\
  match_line (DocGold [5]%Z [10]%Z ["food"] ["pos"]) 3 5 "food" ["r1"; "food"]
    tally0
  = Ok (Tally 0 1 0 1 [] [((5, 10, "food", "pos")%Z, ["r1"; "food"])] 0).
Proof. split; reflexivity. Qed.

(** The converse of C3 does not hold: the prediction 0-7 overlaps the gold
    span 0-5 and is left unmatched. *)
Lemma overlapping_prediction_can_be_unmatched :
  overlaps 0 7 0 5 = true /\
  match_line (DocGold [0]%Z [5]%Z ["food"] ["pos"]) 0 7 "food" ["r1"; "food"]
    tally0
  = Ok tally0.
Proof. split; reflexivity. Qed.


(** C1.  The gold file has the spans 0-5 and 0-10 of one review and the
    prediction has the offsets 0-10 of the second: [compute_match] counts
    no full match, and records the prediction as a partial match with the
    first gold span, the first one that starts at 0. *)
Theorem exact_span_behind_shared_start_is_partial :
  exists (gold : gmap string doc_gold) (d : doc_gold),
    get_gold_info int_decimal nested_gold_file = Ok (gold, 2) /\
    gold !! "r1" = Some d /\
    (0, 10)%Z ∈ spans d /\
    read_prediction int_decimal (tsv ["r1"; "food"; "pizza oven"; "0"; "10"; "neg"])
    = Ok (Prediction "r1" 0 10 "food") /\
    compute_match int_decimal nested_pred_file gold
    = Ok (Tally 0 1 0 1 []
            [((0, 5, "food", "pos")%Z,
              ["r1"; "food"; "pizza oven"; "0"; "10"; "neg"])] 1).
Proof.
  exists {[ "r1" := DocGold [0; 0]%Z [5; 10]%Z ["food"; "food"] ["pos"; "neg"] ]}.
  eexists. split; [vm_compute; reflexivity|].
  split; [reflexivity|]. split; [|split; vm_compute; reflexivity].
  apply list_elem_of_further, list_elem_of_here.
Qed.

Lemma branch_a_exact_end_continues_witness :
  (3 <= 5)%Z /\
  index 5 (starts shared_end_doc) = Ok 0 /\
  getitem (ends shared_end_doc) 0 = Ok 10%Z /\
  scan_body shared_end_doc 3 10 "food" ["r1"; "food"] 5 tally0
  = Ok (Continue (Tally 0 1 0 1 []
                    [((5, 10, "food", "pos")%Z, ["r1"; "food"])] 0)) /\
  for_break (scan_body shared_end_doc 3 10 "food" ["r1"; "food"]) [5; 7]%Z tally0
  = for_break (scan_body shared_end_doc 3 10 "food" ["r1"; "food"]) [7]%Z
      (Tally 0 1 0 1 [] [((5, 10, "food", "pos")%Z, ["r1"; "food"])] 0).
Proof.
  assert (Hle : (3 <= 5)%Z) by lia.
  pose proof (branch_a_exact_end_continues shared_end_doc 3 10 5 "food"
    ["r1"; "food"] [7]%Z tally0 0 (5, 10, "food", "pos")%Z "food"
    Hle eq_refl eq_refl eq_refl eq_refl) as H.
  cbv zeta in H. destruct H as (_ & _ & Hbody & Hloop & _).
  split; [exact Hle|]. split; [reflexivity|]. split; [reflexivity|].
  split; [exact Hbody|exact Hloop].
Defined.


Lemma full_match_moves_one_category_counter_witness :
  let t' := Tally 1 0 1 0
              [((0, 5, "food", "pos")%Z,
                ["r1"; "food"; "pizza"; "0"; "5"; "pos"])] [] 1 in
  pred_line int_decimal sample_gold tally0 exact_line = Ok t' /\
  full_match t' = S (full_match tally0) /\
  exists (p : prediction) (d : doc_gold) (i : nat) (s e : Z) (c se : string),
    read_prediction int_decimal exact_line = Ok p /\
    sample_gold !! p_doc p = Some d /\
    index (p_start p) (starts d) = Ok i /\
    ends d !! i = Some (p_end p) /\
    cats d !! i = Some c /\
    gold_at d i = Ok (s, e, c, se) /\
    fully_matched_pairs t'
    = (fully_matched_pairs tally0 ++ [((s, e, c, se), fields exact_line)])%list /\
    (c = p_category p ->
     full_cat_match t' = S (full_cat_match tally0) /\
     partial_cat_match t' = partial_cat_match tally0) /\
    (c <> p_category p ->
     full_cat_match t' = full_cat_match tally0 /\
     partial_cat_match t' = S (partial_cat_match tally0)).
Proof.
  intros t'.
  assert (Hline : pred_line int_decimal sample_gold tally0 exact_line = Ok t')
    by (vm_compute; reflexivity).
  split; [exact Hline|]. split; [reflexivity|].
  exact (full_match_moves_one_category_counter int_decimal sample_gold
           tally0 t' exact_line Hline eq_refl).
Defined.

Lemma overall_accuracy_is_ratio_of_distinct_lines_witness :
  [tsv ["a"]; tsv ["a"]; tsv ["b"]] <> [] /\
  distinct_lines (common_lines [tsv ["a"]; tsv ["a"]; tsv ["b"]] [tsv ["a"]]) = 1 /\
  distinct_lines [tsv ["a"]; tsv ["a"]; tsv ["b"]] = 2 /\
  compute_overall_sentiment_accuracy [tsv ["a"]; tsv ["a"]; tsv ["b"]] [tsv ["a"]]
  = Ok (1 # 2)%Q.
Proof.
  assert (Hgold : [tsv ["a"]; tsv ["a"]; tsv ["b"]] <> []) by discriminate.
  split; [exact Hgold|]. split; [reflexivity|]. split; [reflexivity|].
  exact (proj1 (proj2 (overall_accuracy_is_ratio_of_distinct_lines
                         [tsv ["a"]; tsv ["a"]; tsv ["b"]] [tsv ["a"]] Hgold))).
Defined.

Lemma unknown_document_raises_witness :
  stray_line ∈ [exact_line; stray_line; apart_line] /\
  head (fields stray_line) = Some "r9" /\
  sample_gold !! "r9" = None /\
  compute_match int_decimal [exact_line; stray_line; apart_line] sample_gold
  = Raise (KeyError "r9").
Proof.
  assert (Hin : stray_line ∈ [exact_line; stray_line; apart_line]).
  { apply list_elem_of_further, list_elem_of_here. }
  assert (Hkey : head (fields stray_line) = Some "r9") by reflexivity.
  assert (Hgold : sample_gold !! "r9" = None) by reflexivity.
  repeat (split; [assumption|]).
  refine (proj2 (unknown_document_raises int_decimal _ sample_gold stray_line
                   "r9" Hin Hkey Hgold)
            [exact_line] [apart_line] _ (Prediction "r9" 0 4 "food")
            eq_refl _ _).
  - vm_compute. reflexivity.
  - vm_compute. reflexivity.
Defined.

Lemma get_gold_info_fails_iff_malformed_witness :
  raises (get_gold_info int_decimal [tsv ["r1"; "food"; "pizza"; "0"; "five"; "pos"]]) /\
  raises (get_gold_info int_decimal [tsv ["r1"; "food"; "pizza"; "0"; "5"]]) /\
  exists gold,
    get_gold_info int_decimal sample_gold_file = Ok (gold, 2) /\
    gold_size gold = 2.
Proof.
  split; [|split].
  - apply (get_gold_info_fails_iff_malformed int_decimal). by constructor.
  - apply (get_gold_info_fails_iff_malformed int_decimal). by constructor.
  - apply (get_gold_info_fails_iff_malformed int_decimal sample_gold_file).
    by repeat constructor.
Defined.

Lemma compute_match_counts_are_lengths_witness :
  exists t,
    compute_match int_decimal sample_pred_file sample_gold = Ok t /\
    full_match t = 1 /\ partial_match t = 1 /\ total t = 3 /\
    full_match t = length (fully_matched_pairs t) /\
    partial_match t = length (partially_matched_pairs t).
Proof.
  eexists. split; [vm_compute; reflexivity|].
  split; [reflexivity|]. split; [reflexivity|]. split; [reflexivity|].
  apply (compute_match_counts_are_lengths int_decimal sample_pred_file
           sample_gold).
  vm_compute. reflexivity.
Defined.

Lemma get_gold_info_entries_parallel_witness :
  get_gold_info int_decimal sample_gold_file = Ok (sample_gold, 2) /\
  sample_gold !! "r1" = Some sample_doc /\
  length (starts sample_doc) = length (ends sample_doc) /\
  length (ends sample_doc) = length (cats sample_doc) /\
  length (cats sample_doc) = length (sents sample_doc) /\
  1 <= length (starts sample_doc).
Proof.
  assert (Hgold : get_gold_info int_decimal sample_gold_file
                  = Ok (sample_gold, 2)) by (vm_compute; reflexivity).
  assert (Hd : sample_gold !! "r1" = Some sample_doc) by reflexivity.
  split; [exact Hgold|]. split; [exact Hd|].
  exact (get_gold_info_entries_parallel int_decimal sample_gold_file
           sample_gold 2 "r1" sample_doc Hgold Hd).
Defined.

(** * The further properties on the sample files *)

Lemma get_gold_info_keeps_file_order_witness :
  get_gold_info int_decimal sample_gold_file = Ok (sample_gold, 2) /\
  items_for int_decimal "r1" sample_gold_file
  = [(0, 5, "food", "pos")%Z; (10, 16, "service", "neg")%Z] /\
  items_for int_decimal "r2" sample_gold_file = [] /\
  sample_gold !! "r2" = None /\
  exists d,
    sample_gold !! "r1" = Some d /\
    starts d = [0; 10]%Z /\ ends d = [5; 16]%Z /\
    cats d = ["food"; "service"] /\ sents d = ["pos"; "neg"].
Proof.
  assert (Hgold : get_gold_info int_decimal sample_gold_file
                  = Ok (sample_gold, 2)) by (vm_compute; reflexivity).
  split; [exact Hgold|]. split; [vm_compute; reflexivity|].
  split; [vm_compute; reflexivity|]. split.
  - apply (get_gold_info_keeps_file_order int_decimal _ _ 2 "r2" Hgold).
    vm_compute. reflexivity.
  - apply (get_gold_info_keeps_file_order int_decimal _ _ 2 "r1" Hgold).
    vm_compute. discriminate.
Defined.

Lemma get_gold_info_error_kind_witness :
  Forall (fun l => malformed int_decimal l = false) sample_gold_file /\
  malformed int_decimal bad_offset_line = true /\
  get_gold_info int_decimal (sample_gold_file ++ [bad_offset_line])%list
  = Raise ValueError.
Proof.
  assert (Hgood : Forall (fun l => malformed int_decimal l = false)
                    sample_gold_file) by (repeat constructor).
  assert (Hbad : malformed int_decimal bad_offset_line = true) by reflexivity.
  split; [exact Hgood|]. split; [exact Hbad|].
  exact (get_gold_info_error_kind int_decimal sample_gold_file []
           bad_offset_line Hgood Hbad).
Defined.

Lemma compute_match_returns_iff_lines_readable_witness :
  get_gold_info int_decimal sample_gold_file = Ok (sample_gold, 2) /\
  (exists t, compute_match int_decimal sample_pred_file sample_gold = Ok t) /\
  Forall (fun raw => exists p, read_prediction int_decimal raw = Ok p /\
                               is_Some (sample_gold !! p_doc p))
    sample_pred_file.
Proof.
  assert (Hgold : get_gold_info int_decimal sample_gold_file
                  = Ok (sample_gold, 2)) by (vm_compute; reflexivity).
  assert (Hrun : exists t, compute_match int_decimal sample_pred_file
                             sample_gold = Ok t).
  { eexists. vm_compute. reflexivity. }
  split; [exact Hgold|]. split; [exact Hrun|].
  apply (compute_match_returns_iff_lines_readable int_decimal sample_gold_file
           sample_pred_file sample_gold 2 Hgold), Hrun.
Defined.

Lemma compute_match_total_is_line_count_witness :
  exists t,
    compute_match int_decimal sample_pred_file sample_gold = Ok t /\
    total t = length sample_pred_file.
Proof.
  eexists. split; [vm_compute; reflexivity|].
  apply (compute_match_total_is_line_count int_decimal sample_pred_file
           sample_gold).
  vm_compute. reflexivity.
Defined.

Lemma compute_match_counters_ordered_witness :
  exists t,
    compute_match int_decimal sample_pred_file sample_gold = Ok t /\
    full_cat_match t <= full_match t /\
    full_match t <= total t /\
    full_cat_match t + partial_cat_match t <= full_match t + partial_match t.
Proof.
  eexists. split; [vm_compute; reflexivity|].
  apply (compute_match_counters_ordered int_decimal sample_pred_file
           sample_gold).
  vm_compute. reflexivity.
Defined.

Lemma fully_matched_pairs_are_exact_witness :
  let pair := ((0, 5, "food", "pos")%Z, fields exact_line) in
  compute_match int_decimal sample_pred_file sample_gold = Ok sample_tally /\
  pair ∈ fully_matched_pairs sample_tally /\
  (exists raw, raw ∈ sample_pred_file /\ pair.2 = fields raw) /\
  exists p d i,
    parse_fields int_decimal pair.2 = Ok p /\
    sample_gold !! p_doc p = Some d /\
    gold_at d i = Ok pair.1 /\
    pair.1.1.1.1 = p_start p /\ pair.1.1.1.2 = p_end p.
Proof.
  intros pair.
  assert (Hrun : compute_match int_decimal sample_pred_file sample_gold
                 = Ok sample_tally) by (vm_compute; reflexivity).
  assert (Hin : pair ∈ fully_matched_pairs sample_tally)
    by apply list_elem_of_here.
  split; [exact Hrun|]. split; [exact Hin|].
  exact (fully_matched_pairs_are_exact int_decimal sample_pred_file
           sample_gold sample_tally pair Hrun Hin).
Defined.

Lemma partially_matched_pairs_overlap_witness :
  let pair := ((10, 16, "service", "neg")%Z, fields late_start_line) in
  compute_match int_decimal sample_pred_file sample_gold = Ok sample_tally /\
  pair ∈ partially_matched_pairs sample_tally /\
  (exists raw, raw ∈ sample_pred_file /\ pair.2 = fields raw) /\
  exists p d i,
    parse_fields int_decimal pair.2 = Ok p /\
    sample_gold !! p_doc p = Some d /\
    gold_at d i = Ok pair.1 /\
    (pair.1.1.1.1, pair.1.1.1.2) <> (p_start p, p_end p) /\
    ((pair.1.1.1.1 <= pair.1.1.1.2)%Z ->
     overlaps (p_start p) (p_end p) pair.1.1.1.1 pair.1.1.1.2 = true).
Proof.
  intros pair.
  assert (Hrun : compute_match int_decimal sample_pred_file sample_gold
                 = Ok sample_tally) by (vm_compute; reflexivity).
  assert (Hin : pair ∈ partially_matched_pairs sample_tally)
    by apply list_elem_of_here.
  split; [exact Hrun|]. split; [exact Hin|].
  exact (partially_matched_pairs_overlap int_decimal sample_pred_file
           sample_gold sample_tally pair Hrun Hin).
Defined.

Lemma report_needs_a_full_and_a_partial_match_witness :
  get_gold_info int_decimal sample_gold_file = Ok (sample_gold, 2) /\
  compute_match int_decimal sample_pred_file sample_gold = Ok sample_tally /\
  0 < full_match sample_tally /\ 0 < partial_match sample_tally /\
  main_acatsent int_decimal sample_gold_file sample_pred_file
  = Ok (Report (1 # 3) (1 # 2) (2 # 3) (1 # 3) (1 # 3) (1 # 1) (1 # 1)) /\
  compute_match int_decimal [exact_line; apart_line] sample_gold
  = Ok (Tally 1 0 1 0 [((0, 5, "food", "pos")%Z, fields exact_line)] [] 2) /\
  main_acatsent int_decimal sample_gold_file [exact_line; apart_line]
  = Raise ZeroDivisionError.
Proof.
  assert (Hgold : get_gold_info int_decimal sample_gold_file
                  = Ok (sample_gold, 2)) by (vm_compute; reflexivity).
  assert (Hrun : compute_match int_decimal sample_pred_file sample_gold
                 = Ok sample_tally) by (vm_compute; reflexivity).
  assert (Hrun2 : compute_match int_decimal [exact_line; apart_line] sample_gold
                  = Ok (Tally 1 0 1 0
                          [((0, 5, "food", "pos")%Z, fields exact_line)] [] 2))
    by (vm_compute; reflexivity).
  assert (Hf : 0 < full_match sample_tally) by (simpl; lia).
  assert (Hp : 0 < partial_match sample_tally) by (simpl; lia).
  split; [exact Hgold|]. split; [exact Hrun|]. split; [exact Hf|].
  split; [exact Hp|]. split; [|split; [exact Hrun2|]].
  - exact (proj1 (report_needs_a_full_and_a_partial_match int_decimal
                    sample_gold_file sample_pred_file sample_gold 2
                    sample_tally Hgold Hrun) Hf Hp).
  - exact (proj2 (report_needs_a_full_and_a_partial_match int_decimal
                    sample_gold_file [exact_line; apart_line] sample_gold 2
                    _ Hgold Hrun2) (or_intror eq_refl)).
Defined.

Lemma report_numbers_ordered_witness :
  let r := Report (1 # 3) (1 # 2) (2 # 3) (1 # 3) (1 # 3) (1 # 1) (1 # 1) in
  main_acatsent int_decimal sample_gold_file sample_pred_file = Ok r /\
  (full_category_accuracy r <= full_precision r)%Q /\
  (full_precision r <= 1)%Q /\
  (full_precision r <= partial_ratio r)%Q /\
  (full_category_accuracy r <= partial_category_accuracy r)%Q /\
  (partial_category_accuracy r <= partial_ratio r)%Q /\
  (full_sentiment_accuracy r <= 1)%Q /\
  (partial_sentiment_accuracy r <= 1)%Q.
Proof.
  intros r.
  assert (Hmain : main_acatsent int_decimal sample_gold_file sample_pred_file
                  = Ok r) by (vm_compute; reflexivity).
  split; [exact Hmain|].
  exact (report_numbers_ordered int_decimal sample_gold_file sample_pred_file
           r Hmain).
Defined.

Lemma overall_accuracy_between_0_and_1_witness :
  [tsv ["pos"]; tsv ["neg"]] <> [] /\
  exists q,
    compute_overall_sentiment_accuracy [tsv ["pos"]; tsv ["neg"]]
      [tsv ["neg"]; tsv ["both"]] = Ok q /\
    (0 <= q)%Q /\ (q <= 1)%Q /\
    ((q == 1)%Q <->
     forall l, l ∈ [tsv ["pos"]; tsv ["neg"]] ->
               l ∈ [tsv ["neg"]; tsv ["both"]]) /\
    ((q == 0)%Q <->
     forall l, l ∈ [tsv ["pos"]; tsv ["neg"]] ->
               l ∉ [tsv ["neg"]; tsv ["both"]]).
Proof.
  assert (Hgold : [tsv ["pos"]; tsv ["neg"]] <> []) by discriminate.
  split; [exact Hgold|].
  exact (overall_accuracy_between_0_and_1 [tsv ["pos"]; tsv ["neg"]]
           [tsv ["neg"]; tsv ["both"]] Hgold).
Defined.

Lemma exact_span_is_full_without_shared_starts_witness :
  aligned sample_doc /\ NoDup (starts sample_doc) /\
  (10, 16)%Z ∈ spans sample_doc /\
  exists i c se,
    starts sample_doc !! i = Some 10%Z /\ ends sample_doc !! i = Some 16%Z /\
    cats sample_doc !! i = Some c /\ sents sample_doc !! i = Some se /\
    match_line sample_doc 10 16 "food" (fields late_start_line) tally0
    = Ok (with_full (10, 16, c, se)%Z c "food" (fields late_start_line) tally0).
Proof.
  assert (Hal : aligned sample_doc) by (repeat split).
  assert (Hnd : NoDup (starts sample_doc)).
  { apply NoDup_ListNoDup. repeat constructor; simpl; intuition lia. }
  assert (Hin : (10, 16)%Z ∈ spans sample_doc).
  { apply list_elem_of_further, list_elem_of_here. }
  split; [exact Hal|]. split; [exact Hnd|]. split; [exact Hin|].
  exact (exact_span_is_full_without_shared_starts sample_doc 10 16 "food"
           (fields late_start_line) tally0 Hal Hnd Hin).
Defined.

Lemma pred_line_full_or_partial_witness :
  let t' := Tally 0 1 0 0 []
              [((10, 16, "service", "neg")%Z, fields late_start_line)] 1 in
  pred_line int_decimal sample_gold tally0 late_start_line = Ok t' /\
  read_prediction int_decimal late_start_line = Ok (Prediction "r1" 8 16 "food") /\
  sample_gold !! "r1" = Some sample_doc /\
  ((full_match t' = S (full_match tally0) /\
    partial_match t' = partial_match tally0 /\
    partially_matched_pairs t' = partially_matched_pairs tally0) \/
   (full_match t' = full_match tally0 /\
    fully_matched_pairs t' = fully_matched_pairs tally0 /\
    partial_match tally0 <= partial_match t'
    <= partial_match tally0 + length (starts sample_doc))).
Proof.
  intros t'.
  assert (Hline : pred_line int_decimal sample_gold tally0 late_start_line
                  = Ok t') by (vm_compute; reflexivity).
  assert (Hp : read_prediction int_decimal late_start_line
               = Ok (Prediction "r1" 8 16 "food")) by (vm_compute; reflexivity).
  assert (Hd : sample_gold !! "r1" = Some sample_doc) by reflexivity.
  split; [exact Hline|]. split; [exact Hp|]. split; [exact Hd|].
  exact (pred_line_full_or_partial int_decimal sample_gold tally0 t'
           late_start_line _ sample_doc Hline Hp Hd).
Defined.
